(** * Gophish template context, template validation and header profiles

    A shallow embedding of [models/template_context.go] and of the template
    model file (header profiles, [Template.Validate]) of Dedeg0/gophish,
    with the properties its specification states about them.

    Layout of the development:
    - Go values shared by the two files (errors, the clock);
    - the packages of the Go standard library the code calls, as interfaces
      ([mail], [url], [rand], [template]) or as code ([path], [time]);
    - the two source files, function by function;
    - a reference instance of the library interfaces, used to run the code
      on concrete inputs;
    - the properties. *)

From Stdlib Require Import ZArith Ascii String List Lia.
From stdpp Require Import base option list gmap strings sorting.

(** ** Go values *)

(** Go's [error] interface. Values are built by [errors.New] or by
    [fmt.Errorf] with the verb %w, which keeps the wrapped error. *)
Inductive error : Type :=
| errors_New (text : string)
| fmt_Errorf_w (text : string) (wrapped : error).

(** [err.Error()] *)
Definition Error (e : error) : string :=
  match e with
  | errors_New text => text
  | fmt_Errorf_w text _ => text
  end.

(** The double quote byte, written by its code. *)
Definition dquote : ascii := "034"%char.

(** The zero byte of a freshly made byte slice. *)
Definition byte0 : ascii := "000"%char.

(** [s[i]] on a Go string. An index out of range panics in Go; every index
    the code uses is in range (see [fill_in_charset]). *)
Definition byte_at (s : string) (i : Z) : ascii :=
  match String.get (Z.to_nat i) s with
  | Some c => c
  | None => byte0
  end.

(** ** The clock

    The code reads the wall clock in two places ([generateBoundary] seeds
    its generator from it, [hora] formats it). A [World] holds every
    reading the process will make, and how many were made so far. *)

Module time.

(** A [time.Time]: the instant in nanoseconds since the Unix epoch, and the
    offset in seconds of the local zone at that instant. *)
Record Time := mkTime { unixNano : Z; zoneOffset : Z }.

Definition UnixNano (t : Time) : Z := unixNano t.

Definition digit (n : Z) : ascii := ascii_of_nat (48 + Z.to_nat n).

Definition two_digits (n : Z) : string :=
  String (digit (n / 10)) (String (digit (n mod 10)) EmptyString).

(** [t.Format(layout)] for the one layout the code uses, 15:04, the hour
    (00 to 23) and the minute of the local time. *)
Definition Format_1504 (t : Time) : string :=
  let secs := (unixNano t / 1000000000 + zoneOffset t)%Z in
  two_digits ((secs / 3600) mod 24) +:+ ":" +:+ two_digits ((secs / 60) mod 60).

End time.

Record World := mkWorld { clock : nat -> time.Time; reads : nat }.

(** Computations that may read the clock. *)
Definition M (A : Type) : Type := World -> A * World.

Definition ret {A} (a : A) : M A := fun w => (a, w).

Definition bind {A B} (m : M A) (k : A -> M B) : M B :=
  fun w => let (a, w') := m w in k a w'.

Notation "'let*' x ':=' m 'in' k" := (bind m (fun x => k))
  (at level 10, x name, m at level 100, k at level 200).

(** [time.Now()] *)
Definition time_Now : M time.Time :=
  fun w => (clock w (reads w), mkWorld (clock w) (S (reads w))).

(** ** math/rand, as an interface

    [New seed] is [rand.New(rand.NewSource(seed))]; [Intn] returns the
    number drawn and the generator's next state. The law is the documented
    contract of [Intn]: a number in the half-open interval from 0 to n. *)
Module rand.

Class Source := {
  Rand : Type;
  New : Z -> Rand;
  Intn : Rand -> Z -> Z * Rand;
  Intn_range : forall r n, (0 < n)%Z -> (0 <= fst (Intn r n) < n)%Z
}.

End rand.

(** ** package path, as code

    [path.Clean] and [path.Join] of the Go standard library, on byte
    lists. The lazily allocated buffer of [Clean] is the list [out] of the
    bytes written so far: its write index [w] is [length out]. *)
Module path.

Definition slash : ascii := "/"%char.
Definition dot : ascii := "."%char.

(** [for out.w > dotdot && out.index(out.w) != '/' { out.w-- }], started at
    write index [w]; the result is the index the loop stops at. *)
Fixpoint back_to_slash (out : list ascii) (dotdot w : nat) : nat :=
  match w with
  | 0 => 0
  | S w' =>
      if bool_decide (dotdot < w) && negb (bool_decide (out !! w = Some slash))
      then back_to_slash out dotdot w'
      else w
  end.

(** [r == n || path[r] == '/'] for the unread part [p] of the path. *)
Definition at_end_or_slash (p : list ascii) : bool :=
  match p with
  | [] => true
  | c :: _ => bool_decide (c = slash)
  end.

(** The bytes of the path element that starts [p], and what follows it:
    [for ; r < n && path[r] != '/'; r++ { out.append(path[r]) }]. *)
Fixpoint element (p : list ascii) : list ascii :=
  match p with
  | [] => []
  | c :: rest => if bool_decide (c = slash) then [] else c :: element rest
  end.

Fixpoint after_element (p : list ascii) : list ascii :=
  match p with
  | [] => []
  | c :: rest => if bool_decide (c = slash) then p else after_element rest
  end.

(** One turn of the loop [for r < n] of [Clean], on the unread part
    [c :: rest] of the path: the part left unread, the buffer and [dotdot]
    after the turn. *)
Definition clean_step (rooted : bool) (c : ascii) (rest out : list ascii)
    (dotdot : nat) : list ascii * list ascii * nat :=
  let element_case :=
    let out1 :=
      if rooted && negb (bool_decide (length out = 1))
         || negb rooted && negb (bool_decide (length out = 0))
      then out ++ [slash] else out in
    (after_element rest, out1 ++ c :: element rest, dotdot) in
  if bool_decide (c = slash) then
    (rest, out, dotdot)
  else if bool_decide (c = dot) && at_end_or_slash rest then
    (rest, out, dotdot)
  else
    match rest with
    | d :: rest2 =>
        if bool_decide (c = dot) && bool_decide (d = dot)
           && at_end_or_slash rest2
        then
          if bool_decide (dotdot < length out) then
            let w := back_to_slash out dotdot (length out - 1) in
            (rest2, take w out, dotdot)
          else if negb rooted then
            let out1 :=
              if bool_decide (0 < length out) then out ++ [slash] else out in
            let out2 := out1 ++ [dot; dot] in
            (rest2, out2, length out2)
          else
            (rest2, out, dotdot)
        else element_case
    | [] => element_case
    end.

(** The loop; its result is the buffer and [dotdot] when it ends. Every
    turn reads at least one byte, so [length p] turns of fuel are enough
    (see [clean_loop_fuel]). *)
Fixpoint clean_loop (fuel : nat) (rooted : bool) (p out : list ascii)
    (dotdot : nat) : list ascii * nat :=
  match fuel, p with
  | 0, _ => (out, dotdot)
  | _, [] => (out, dotdot)
  | S fuel', c :: rest =>
      let '(p', out', dotdot') := clean_step rooted c rest out dotdot in
      clean_loop fuel' rooted p' out' dotdot'
  end.

Definition Clean_bytes (p : list ascii) : list ascii :=
  match p with
  | [] => [dot]
  | c :: rest =>
      let rooted := bool_decide (c = slash) in
      let out :=
        if rooted then fst (clean_loop (length p) rooted rest [slash] 1)
        else fst (clean_loop (length p) rooted p [] 0) in
      if bool_decide (length out = 0) then [dot] else out
  end.

Definition Clean (p : string) : string :=
  string_of_list_ascii (Clean_bytes (list_ascii_of_string p)).

(** The buffer [Join] builds before cleaning it. *)
Definition join_buf (elem : list string) : list ascii :=
  foldl (fun buf e =>
           if bool_decide (0 < length buf) || negb (bool_decide (e = EmptyString))
           then (if bool_decide (0 < length buf) then buf ++ [slash] else buf)
                  ++ list_ascii_of_string e
           else buf)
        [] elem.

Definition Join (elem : list string) : string :=
  let size := foldl (fun size e => size + String.length e) 0 elem in
  if bool_decide (size = 0) then EmptyString
  else Clean (string_of_list_ascii (join_buf elem)).

End path.

(** ** net/mail, as an interface *)
Module mail.

(** [mail.Address]: the display name and the bare address. *)
Record address := mkAddress { Name : string; Address : string }.

Class Parser := {
  ParseAddress : string -> address + error
}.

End mail.

(** ** net/url, as an interface

    The [URL] structure and [Values.Set] are written out; parsing and
    printing are the library's. *)
Module url.

Record Userinfo := mkUserinfo {
  username : string; password : string; passwordSet : bool
}.

Record URL := mkURL {
  Scheme : string;
  Opaque : string;
  User : option Userinfo;
  Host : string;
  Path : string;
  RawPath : string;
  OmitHost : bool;
  ForceQuery : bool;
  RawQuery : string;
  Fragment : string;
  RawFragment : string
}.

(** [u.Path = p] and [u.RawQuery = q] *)
Definition set_Path (u : URL) (p : string) : URL :=
  mkURL (Scheme u) (Opaque u) (User u) (Host u) p (RawPath u) (OmitHost u)
        (ForceQuery u) (RawQuery u) (Fragment u) (RawFragment u).

Definition set_RawQuery (u : URL) (q : string) : URL :=
  mkURL (Scheme u) (Opaque u) (User u) (Host u) (Path u) (RawPath u)
        (OmitHost u) (ForceQuery u) q (Fragment u) (RawFragment u).

(** [url.Values], a map from a key to its values in order. *)
Abbreviation Values := (gmap string (list string)).

(** [v.Set(key, value)]: [v[key] = []string{value}] *)
Definition Values_Set (v : Values) (key value : string) : Values :=
  <[key := [value]]> v.

(** [v.Get(key)]: the first value of the key, or the empty string. *)
Definition Values_Get (v : Values) (key : string) : string :=
  match v !! key with
  | Some (value :: _) => value
  | _ => EmptyString
  end.

Class Package := {
  Parse : string -> URL + error;
  String : URL -> string;
  (** [ParseQuery] returns the pairs it could read together with the first
      error it met. *)
  ParseQuery : string -> Values * option error;
  Encode : Values -> string
}.

(** [u.Query()]: [v, _ := ParseQuery(u.RawQuery); return v] *)
Definition Query {UP : Package} (u : URL) : Values := fst (ParseQuery (RawQuery u)).

End url.

(** ** text/template, as an interface

    The data handed to a template is read by reflection: a string, or a
    structure with named fields, some of them embedded structures. A parsed
    template executes by writing to a buffer and calling the functions of
    its function map; [Exec] is that run seen from outside: it ends with
    the buffer and the error, or calls a function and goes on with what the
    function returned. *)
Module template.

Inductive Value : Type :=
| Str (s : string)
| Struct (type_name : string) (fields : list Field)
with Field : Type :=
| mkField (name : string) (embedded : bool) (value : Value).

Inductive Exec : Type :=
| Done (buff : string) (err : option error)
| Call (name : string) (k : string -> Exec).

(** A [template.FuncMap] of functions without arguments that return a
    string. *)
Definition FuncMap : Type := list (string * M string).

Fixpoint lookup_func (funcMap : FuncMap) (name : string) : option (M string) :=
  match funcMap with
  | [] => None
  | (name', f) :: rest =>
      if bool_decide (name' = name) then Some f else lookup_func rest name
  end.

Class Engine := {
  Template : Type;
  (** [template.New(name).Funcs(funcMap).Parse(text)]; parsing sees the
      names of the function map only. *)
  Parse : list string -> string -> Template + error;
  Execute : Template -> Value -> Exec
}.

(** Running an execution against the function map. *)
Fixpoint run (funcMap : FuncMap) (e : Exec) : M (string * option error) :=
  match e with
  | Done buff err => ret (buff, err)
  | Call name k =>
      match lookup_func funcMap name with
      | Some f => let* v := f in run funcMap (k v)
      | None =>
          ret (EmptyString,
               Some (errors_New (name +:+ " is not a defined function")))
      end
  end.

End template.

(** ** The template model file: header profiles *)

Module HeaderProfile.
Record t := mk { Name : string; Headers : gmap string string }.
(** The zero value; a nil map reads as the empty map. *)
Definition zero : t := mk EmptyString ∅.
End HeaderProfile.

Definition PredefinedHeaderProfiles : gmap string HeaderProfile.t :=
  list_to_map [
    ("default", HeaderProfile.mk "Default (Gophish)"
       (list_to_map [("MIME-Version", "1.0")]));
    ("apple_mail", HeaderProfile.mk "Apple Mail (macOS)"
       (list_to_map [("MIME-Version", "1.0 (Mac OS X Mail 11.5 (3445.9.1))");
                     ("X-Mailer", "Apple Mail (2.3445.9.1)")]));
    ("outlook", HeaderProfile.mk "Microsoft Outlook (Desktop)"
       (list_to_map [("MIME-Version", "1.0");
                     ("X-Mailer", "Microsoft Outlook 16.0");
                     ("Content-Language", "en-us");
                     ("x-ms-has-attach", EmptyString);
                     ("x-ms-tnef-correlator", EmptyString)]));
    ("gmail_web", HeaderProfile.mk "Gmail (Web Interface)"
       (list_to_map [("MIME-Version", "1.0")]));
    ("yahoo_web", HeaderProfile.mk "Yahoo Mail (Web Interface)"
       (list_to_map [("MIME-Version", "1.0")]))
  ].

Definition ErrTemplateNameNotSpecified : error :=
  errors_New "Template name not specified".

Definition ErrTemplateMissingParameter : error :=
  errors_New "Need to specify at least plaintext or HTML content".

Definition ErrInvalidHeaderProfile : error :=
  errors_New "Invalid header profile specified".

Definition charset : string :=
  "abcdefghijklmnopqrstuvwxyzABCDEFGHIJKLMNOPQRSTUVWXYZ0123456789".

(** The loop of [generateBoundary]: for each index [i] of the slice, in
    order, [boundary[i] = charset[seededRand.Intn(len(charset))]]. *)
Fixpoint fill {R : rand.Source} (indices : list nat) (seededRand : rand.Rand)
    (boundary : list ascii) : list ascii :=
  match indices with
  | [] => boundary
  | i :: rest =>
      let (k, seededRand') :=
        rand.Intn seededRand (Z.of_nat (String.length charset)) in
      fill rest seededRand' (<[i := byte_at charset k]> boundary)
  end.

Definition generateBoundary {R : rand.Source} : M string :=
  let* now := time_Now in
  let seededRand := rand.New (time.UnixNano now) in
  let boundary := replicate 30 byte0 in
  ret (string_of_list_ascii
         (fill (seq 0 (length boundary)) seededRand boundary)).

(** [fmt.Sprintf] with the format [multipart/alternative; boundary=<q>%s<q>],
    where <q> is a double quote. *)
Definition content_type (boundary : string) : string :=
  "multipart/alternative; boundary=" +:+
  String dquote (boundary +:+ String dquote EmptyString).

(** The copy loop: [for k, v := range src { headers[k] = v }]. *)
Definition copy_headers (src : gmap string string) : gmap string string :=
  map_fold (fun k v headers => <[k := v]> headers) ∅ src.

Definition GetHeadersForProfile {R : rand.Source} (profileName : string)
    : M (gmap string string * string * option error) :=
  let ok := bool_decide (is_Some (PredefinedHeaderProfiles !! profileName)) in
  let profile :=
    default HeaderProfile.zero (PredefinedHeaderProfiles !! profileName) in
  let '(profileName, profile) :=
    if negb ok || bool_decide (profileName = EmptyString)
    then ("default",
          default HeaderProfile.zero (PredefinedHeaderProfiles !! "default"))
    else (profileName, profile) in
  let headers := copy_headers (HeaderProfile.Headers profile) in
  let* suffix := generateBoundary in
  let boundary := "----=_NextPart_" +:+ suffix in
  let* boundary :=
    (if bool_decide (profileName = "apple_mail")
     then let* suffix' := generateBoundary in ret ("Apple-Mail=_" +:+ suffix')
     else ret boundary) in
  let headers := <["Content-Type" := content_type boundary]> headers in
  ret (headers, boundary, None).

(** ** models/template_context.go *)

(** The interface [TemplateContext]: what a campaign or an email request
    gives the builder. *)
Class TemplateContext (T : Type) := {
  getFromAddress : T -> string;
  getBaseURL : T -> string
}.

(** [BaseRecipient] is declared in another file of the package; the code
    here reads its four string fields. *)
Module BaseRecipient.
Record t := mk {
  Email : string; FirstName : string; LastName : string; Position : string
}.
Definition zero : t := mk EmptyString EmptyString EmptyString EmptyString.
(** The value as a template sees it. *)
Definition reflect (r : t) : template.Value :=
  template.Struct "models.BaseRecipient" [
    template.mkField "Email" false (template.Str (Email r));
    template.mkField "FirstName" false (template.Str (FirstName r));
    template.mkField "LastName" false (template.Str (LastName r));
    template.mkField "Position" false (template.Str (Position r))
  ].
End BaseRecipient.

Module PhishingTemplateContext.
Record t := mk {
  From : string;
  URL : string;
  Tracker : string;
  TrackingURL : string;
  RId : string;
  BaseURL : string;
  BaseRecipient : BaseRecipient.t
}.
(** [PhishingTemplateContext{}] *)
Definition zero : t :=
  mk EmptyString EmptyString EmptyString EmptyString EmptyString EmptyString
     BaseRecipient.zero.
Definition reflect (c : t) : template.Value :=
  template.Struct "models.PhishingTemplateContext" [
    template.mkField "From" false (template.Str (From c));
    template.mkField "URL" false (template.Str (URL c));
    template.mkField "Tracker" false (template.Str (Tracker c));
    template.mkField "TrackingURL" false (template.Str (TrackingURL c));
    template.mkField "RId" false (template.Str (RId c));
    template.mkField "BaseURL" false (template.Str (BaseURL c));
    template.mkField "BaseRecipient" true
      (BaseRecipient.reflect (BaseRecipient c))
  ].
End PhishingTemplateContext.

(** Modelled from the spec: the constant [RecipientParameter] is declared
    in another file of the package; the specification names the key rid. *)
Definition RecipientParameter : string := "rid".

(** [currentTimeHHMM], the function registered as hora. *)
Definition currentTimeHHMM : M string :=
  let* now := time_Now in
  ret (time.Format_1504 now).

Definition ExecuteTemplate {TE : template.Engine} (text : string)
    (data : template.Value) : M (string * option error) :=
  let funcMap : template.FuncMap := [("hora", currentTimeHHMM)] in
  match template.Parse (fst <$> funcMap) text with
  | inr err =>
      ret (EmptyString,
           Some (fmt_Errorf_w ("error parsing template: " +:+ Error err) err))
  | inl tmpl =>
      let* res := template.run funcMap (template.Execute tmpl data) in
      match snd res with
      | Some err =>
          ret (EmptyString,
               Some (fmt_Errorf_w ("error executing template: " +:+ Error err)
                                  err))
      | None => ret (fst res, None)
      end
  end.

(** The source parses [templateURL] three times to get three structures
    it can change independently; values are immutable here, so the three
    start from the one parsed value. *)
Definition NewPhishingTemplateContext
    {MP : mail.Parser} {UP : url.Package} {TE : template.Engine}
    {T : Type} {TC : TemplateContext T}
    (ctx : T) (r : BaseRecipient.t) (rid : string)
    : M (PhishingTemplateContext.t * option error) :=
  let fromAddr := getFromAddress ctx in
  match mail.ParseAddress fromAddr with
  | inr err =>
      ret (PhishingTemplateContext.zero,
           Some (fmt_Errorf_w
                   ("failed to parse from address '" +:+ fromAddr +:+ "': "
                    +:+ Error err) err))
  | inl f =>
      let fn := mail.Name f in
      let fn := if bool_decide (fn = EmptyString) then mail.Address f else fn in
      let* res := ExecuteTemplate (getBaseURL ctx) (BaseRecipient.reflect r) in
      let templateURL := fst res in
      match snd res with
      | Some err =>
          ret (PhishingTemplateContext.zero,
               Some (fmt_Errorf_w
                       ("failed to execute base URL template: " +:+ Error err)
                       err))
      | None =>
          match url.Parse templateURL with
          | inr err =>
              ret (PhishingTemplateContext.zero,
                   Some (fmt_Errorf_w
                           ("failed to parse templated base URL '"
                            +:+ templateURL +:+ "': " +:+ Error err) err))
          | inl parsed =>
              let baseURL := url.set_Path parsed EmptyString in
              let baseURL := url.set_RawQuery baseURL EmptyString in
              let phishURL := parsed in
              let q := url.Query phishURL in
              let q := url.Values_Set q RecipientParameter rid in
              let phishURL := url.set_RawQuery phishURL (url.Encode q) in
              let trackingURL := parsed in
              let trackingURL :=
                url.set_Path trackingURL
                  (path.Join [url.Path trackingURL; "/track"]) in
              let trackingURL := url.set_RawQuery trackingURL (url.Encode q) in
              ret (PhishingTemplateContext.mk
                     fn
                     (url.String phishURL)
                     ("<img alt='' style='display: none' src='"
                      +:+ url.String trackingURL +:+ "'/>")
                     (url.String trackingURL)
                     rid
                     (url.String baseURL)
                     r,
                   None)
          end
      end
  end.

Module ValidationContext.
Record t := mk { FromAddress : string; BaseURL : string }.
End ValidationContext.

#[export] Instance ValidationContext_TemplateContext
    : TemplateContext ValidationContext.t := {
  getFromAddress vc := ValidationContext.FromAddress vc;
  getBaseURL vc := ValidationContext.BaseURL vc
}.

(** [Result] is declared in another file of the package; the validator
    fills its recipient and its recipient id. *)
Module Result.
Record t := mk { BaseRecipient : BaseRecipient.t; RId : string }.
End Result.

Definition ValidateTemplate {MP : mail.Parser} {UP : url.Package} {TE : template.Engine}
    (text : string) : M (option error) :=
  let vc := ValidationContext.mk "foo@bar.com" "http://example.com" in
  let td := Result.mk (BaseRecipient.mk "foo@bar.com" "Foo" "Bar" "Test")
                      "validate123" in
  let* res :=
    NewPhishingTemplateContext vc (Result.BaseRecipient td) (Result.RId td) in
  let ptx := fst res in
  match snd res with
  | Some err =>
      ret (Some (fmt_Errorf_w
                   ("error creating validation context: " +:+ Error err) err))
  | None =>
      let* res := ExecuteTemplate text (PhishingTemplateContext.reflect ptx) in
      match snd res with
      | Some err =>
          ret (Some (fmt_Errorf_w
                       ("template validation failed: " +:+ Error err) err))
      | None => ret None
      end
  end.

(** ** The template model file: templates *)

(** [Attachment] and its [Validate] method are declared in another file of
    the package. *)
Class AttachmentModel := {
  Attachment : Type;
  Attachment_Validate : Attachment -> M (option error)
}.

Module Template.

Record t {AM : AttachmentModel} := mk {
  Id : Z;
  UserId : Z;
  Name : string;
  EnvelopeSender : string;
  Subject : string;
  Text : string;
  HTML : string;
  ModifiedDate : time.Time;
  Attachments : list Attachment;
  HeaderProfile : string
}.

(** [for _, a := range t.Attachments { if err := a.Validate(); ... }] *)
Fixpoint validate_attachments {AM : AttachmentModel} (l : list Attachment)
    : M (option error) :=
  match l with
  | [] => ret None
  | a :: rest =>
      let* err := Attachment_Validate a in
      match err with
      | Some err => ret (Some err)
      | None => validate_attachments rest
      end
  end.

(** The [switch] of [Validate]: the first case that holds is taken. *)
Definition validate_switch {MP : mail.Parser} {AM : AttachmentModel} (t : t)
    : option error :=
  if bool_decide (Name t = EmptyString) then
    Some ErrTemplateNameNotSpecified
  else if bool_decide (Text t = EmptyString)
          && bool_decide (HTML t = EmptyString) then
    Some ErrTemplateMissingParameter
  else if negb (bool_decide (EnvelopeSender t = EmptyString)) then
    match mail.ParseAddress (EnvelopeSender t) with
    | inr err => Some err
    | inl _ => None
    end
  else None.

Definition Validate {MP : mail.Parser} {UP : url.Package} {TE : template.Engine}
    {AM : AttachmentModel} (t : t) : M (option error) :=
  if negb (bool_decide (HeaderProfile t = EmptyString))
     && negb (bool_decide (is_Some (PredefinedHeaderProfiles !! HeaderProfile t)))
  then ret (Some ErrInvalidHeaderProfile)
  else
    match validate_switch t with
    | Some err => ret (Some err)
    | None =>
        let* err := ValidateTemplate (HTML t) in
        match err with
        | Some err => ret (Some err)
        | None =>
            let* err := ValidateTemplate (Text t) in
            match err with
            | Some err => ret (Some err)
            | None => validate_attachments (Attachments t)
            end
        end
    end.

End Template.

(** ** A reference instance of the library interfaces

    Executable models of the library functions behind the interfaces, used
    to run the code on concrete inputs. Where a model covers only some of
    the inputs its library accepts, it says so and answers every other
    input with the error [unsupported]. *)
Module Ref.

Definition unsupported : error :=
  errors_New "input outside the modelled fragment".

(** *** Bytes and byte lists *)

Definition in_range (lo hi : nat) (c : ascii) : bool :=
  (lo <=? nat_of_ascii c) && (nat_of_ascii c <=? hi).

Definition is_digit (c : ascii) : bool := in_range 48 57 c.
Definition is_upper (c : ascii) : bool := in_range 65 90 c.
Definition is_lower (c : ascii) : bool := in_range 97 122 c.
Definition is_alpha (c : ascii) : bool := is_upper c || is_lower c.
Definition is_alnum (c : ascii) : bool := is_alpha c || is_digit c.

Definition one_of (set : string) (c : ascii) : bool :=
  bool_decide (c ∈ list_ascii_of_string set).

(** [strings.Cut(s, sep)] for a one byte separator: the bytes before the
    first [sep], and the bytes after it if there is one. *)
Fixpoint cut (sep : ascii) (s : list ascii) : list ascii * option (list ascii) :=
  match s with
  | [] => ([], None)
  | c :: rest =>
      if bool_decide (c = sep) then ([], Some rest)
      else let (before, after) := cut sep rest in (c :: before, after)
  end.

(** [strings.Split(s, sep)] for a one byte separator. *)
Fixpoint split (sep : ascii) (s : list ascii) : list (list ascii) :=
  match s with
  | [] => [[]]
  | c :: rest =>
      if bool_decide (c = sep) then [] :: split sep rest
      else match split sep rest with
           | part :: parts => (c :: part) :: parts
           | [] => [[c]]
           end
  end.

Definition has_prefix (prefix s : list ascii) : bool :=
  bool_decide (take (length prefix) s = prefix).

Definition has_suffix (suffix s : list ascii) : bool :=
  bool_decide (drop (length s - length suffix) s = suffix)
  && (length suffix <=? length s).

Definition bytes (s : string) : list ascii := list_ascii_of_string s.
Definition str (l : list ascii) : string := string_of_list_ascii l.

(** [strings.ToLower] on ASCII. *)
Definition to_lower (c : ascii) : ascii :=
  if is_upper c then ascii_of_nat (nat_of_ascii c + 32) else c.

(** *** math/rand: a linear congruential generator. Only the contract of
    [Intn] matters to the code. *)
Definition lcg_next (state : Z) : Z :=
  ((state * 6364136223846793005 + 1442695040888963407) mod 2 ^ 63)%Z.

#[local] Instance rand_source : rand.Source.
Proof.
  refine {| rand.Rand := Z;
            rand.New := fun seed => seed;
            rand.Intn := fun r n => ((lcg_next r / 2 ^ 16) mod n, lcg_next r)%Z |}.
  intros r n Hn; simpl. apply Z.mod_pos_bound; exact Hn.
Defined.

(** *** net/mail: the plain forms [local@domain] and
    [Words Of Name <local@domain>], where the local part and the domain
    are dot separated atoms over letters, digits, [-], [_] and [+], and the
    display name is made of words of letters and digits separated by one
    space. *)
Definition is_atext (c : ascii) : bool := is_alnum c || one_of "-_+" c.

Definition is_atom (part : list ascii) : bool :=
  negb (bool_decide (part = [])) && forallb is_atext part.

Definition is_dot_atom (s : list ascii) : bool :=
  forallb is_atom (split "." s).

Definition is_addr_spec (s : list ascii) : bool :=
  match cut "@" s with
  | (local, Some domain) => is_dot_atom local && is_dot_atom domain
  | _ => false
  end.

Definition is_word (w : list ascii) : bool :=
  negb (bool_decide (w = [])) && forallb is_alnum w.

Definition ParseAddress (address : string) : mail.address + error :=
  let s := bytes address in
  if is_addr_spec s then inl (mail.mkAddress EmptyString address)
  else
    match cut "<" s with
    | (name, Some rest) =>
        let spec := take (length rest - 1) rest in
        if has_suffix [" "%char] name && has_suffix [">"%char] rest
           && forallb is_word (split " " (take (length name - 1) name))
           && is_addr_spec spec
        then inl (mail.mkAddress (str (take (length name - 1) name)) (str spec))
        else inr unsupported
    | _ => inr unsupported
    end.

#[local] Instance mail_parser : mail.Parser := {| mail.ParseAddress := ParseAddress |}.

(** *** net/url: escaping *)

Inductive encoding :=
| encodePath | encodePathSegment | encodeHost | encodeZone
| encodeUserPassword | encodeQueryComponent | encodeFragment.

Definition is_host_mode (mode : encoding) : bool :=
  match mode with encodeHost | encodeZone => true | _ => false end.

Definition shouldEscape (c : ascii) (mode : encoding) : bool :=
  if is_alnum c then false
  else if is_host_mode mode
          && (one_of "!$&'()*+,;=:[]<>" c || bool_decide (c = dquote))
  then false
  else if one_of "-_.~" c then false
  else if one_of "$&+,/:;=?@" c
          && negb (is_host_mode mode) then
    match mode with
    | encodePath => bool_decide (c = "?"%char)
    | encodePathSegment => one_of "/;,?" c
    | encodeUserPassword => one_of "@/?:" c
    | encodeQueryComponent => true
    | _ => false
    end
  else if match mode with encodeFragment => one_of "!()*" c | _ => false end
  then false
  else true.

Definition upperhex (n : nat) : ascii := byte_at "0123456789ABCDEF" (Z.of_nat n).

Definition unhex (c : ascii) : option nat :=
  if is_digit c then Some (nat_of_ascii c - 48)
  else if in_range 97 102 c then Some (nat_of_ascii c - 97 + 10)
  else if in_range 65 70 c then Some (nat_of_ascii c - 65 + 10)
  else None.

Definition escape_byte (mode : encoding) (c : ascii) : list ascii :=
  if bool_decide (c = " "%char)
     && match mode with encodeQueryComponent => true | _ => false end
  then ["+"%char]
  else if shouldEscape c mode
  then ["%"%char; upperhex (nat_of_ascii c / 16); upperhex (nat_of_ascii c mod 16)]
  else [c].

Definition escape (s : list ascii) (mode : encoding) : list ascii :=
  concat (escape_byte mode <$> s).

(** [unescape]; [None] stands for its error. *)
Fixpoint unescape_fuel (fuel : nat) (s : list ascii) (mode : encoding)
    : option (list ascii) :=
  match fuel with
  | 0 => None
  | S fuel' =>
      match s with
      | [] => Some []
      | c :: rest =>
          if bool_decide (c = "%"%char) then
            match rest with
            | h1 :: h2 :: rest2 =>
                match unhex h1, unhex h2 with
                | Some a, Some b =>
                    if is_host_mode mode then None
                    else cons (ascii_of_nat (16 * a + b))
                           <$> unescape_fuel fuel' rest2 mode
                | _, _ => None
                end
            | _ => None
            end
          else if bool_decide (c = "+"%char)
                  && match mode with encodeQueryComponent => true | _ => false end
          then cons " "%char <$> unescape_fuel fuel' rest mode
          else if is_host_mode mode && (nat_of_ascii c <? 128)
                  && shouldEscape c encodeHost
          then None
          else cons c <$> unescape_fuel fuel' rest mode
      end
  end.

Definition unescape (s : list ascii) (mode : encoding) : option (list ascii) :=
  unescape_fuel (S (length s)) s mode.

Definition validEncoded (s : list ascii) (mode : encoding) : bool :=
  forallb (fun c => one_of "!$&'()*+,;=:@[]%" c || negb (shouldEscape c mode)) s.

(** *** net/url: [Parse], for URLs without user information and without
    a host in brackets (both are answered with [unsupported]; hosts do
    not take percent escapes) *)

(** [getScheme]: the length of the scheme when there is one. *)
Fixpoint scheme_end (i : nat) (s : list ascii) : option nat + error :=
  match s with
  | [] => inl None
  | c :: rest =>
      if is_alpha c then scheme_end (S i) rest
      else if is_digit c || one_of "+-." c then
        if bool_decide (i = 0) then inl None else scheme_end (S i) rest
      else if bool_decide (c = ":"%char) then
        if bool_decide (i = 0) then inr (errors_New "missing protocol scheme")
        else inl (Some i)
      else inl None
  end.

Definition count (c : ascii) (s : list ascii) : nat :=
  length (filter (fun x => x = c) s).

Definition validOptionalPort (port : list ascii) : bool :=
  match port with
  | [] => true
  | c :: digits => bool_decide (c = ":"%char) && forallb is_digit digits
  end.

(** The part of the host from its last colon on. *)
Definition colon_port (host : list ascii) : list ascii :=
  match list_find (fun c => c = ":"%char) (reverse host) with
  | Some (i, _) => drop (length host - S i) host
  | None => []
  end.

Definition parseHost (host : list ascii) : list ascii + error :=
  if has_prefix ["["%char] host then inr unsupported
  else if negb (validOptionalPort (colon_port host)) then
    inr (errors_New "invalid port after host")
  else match unescape host encodeHost with
       | Some host => inl host
       | None => inr (errors_New "invalid character in host name")
       end.

Definition escape_error : error := errors_New "invalid URL escape".

(** [parse(rawURL, false)] *)
Definition parse (rawURL : list ascii) : url.URL + error :=
  if existsb (fun c => (nat_of_ascii c <? 32) || (nat_of_ascii c =? 127)) rawURL
  then inr (errors_New "net/url: invalid control character in URL")
  else if bool_decide (rawURL = ["*"%char]) then
    inl (url.mkURL EmptyString EmptyString None EmptyString "*" EmptyString
                   false false EmptyString EmptyString EmptyString)
  else
    match scheme_end 0 rawURL with
    | inr err => inr err
    | inl sch =>
        let scheme :=
          match sch with Some n => to_lower <$> take n rawURL | None => [] end in
        let rest :=
          match sch with Some n => drop (S n) rawURL | None => rawURL end in
        let forceQuery :=
          has_suffix ["?"%char] rest && bool_decide (count "?" rest = 1) in
        let '(rest, rawQuery) :=
          if forceQuery then (take (length rest - 1) rest, [])
          else (fst (cut "?" rest), default [] (snd (cut "?" rest))) in
        let finish (user_host : list ascii) (omitHost : bool) (rest : list ascii) :=
          match unescape rest encodePath with
          | None => inr escape_error
          | Some path =>
              inl (url.mkURL (str scheme) EmptyString None (str user_host)
                     (str path)
                     (if bool_decide (escape path encodePath = rest)
                      then EmptyString else str rest)
                     omitHost forceQuery (str rawQuery) EmptyString EmptyString)
          end in
        if negb (has_prefix ["/"%char] rest) && negb (bool_decide (scheme = []))
        then
          inl (url.mkURL (str scheme) (str rest) None EmptyString EmptyString
                 EmptyString false forceQuery (str rawQuery) EmptyString
                 EmptyString)
        else if negb (has_prefix ["/"%char] rest)
                && bool_decide (":"%char ∈ fst (cut "/" rest))
        then inr (errors_New "first path segment in URL cannot contain colon")
        else if (negb (bool_decide (scheme = []))
                 || negb (has_prefix (bytes "///") rest))
                && has_prefix (bytes "//") rest
        then
          let authority := drop 2 rest in
          let '(authority, rest) :=
            match cut "/" authority with
            | (host, Some after) => (host, "/"%char :: after)
            | (host, None) => (host, [])
            end in
          if bool_decide ("@"%char ∈ authority) then inr unsupported
          else match parseHost authority with
               | inr err => inr err
               | inl host => finish host false rest
               end
        else
          finish []
            (negb (bool_decide (scheme = [])) && has_prefix ["/"%char] rest)
            rest
    end.

Definition Parse (rawURL : string) : url.URL + error :=
  let '(u, frag) := cut "#" (bytes rawURL) in
  match parse u with
  | inr err => inr (fmt_Errorf_w ("parse " +:+ str u +:+ ": " +:+ Error err) err)
  | inl parsed =>
      match frag with
      | None | Some [] => inl parsed
      | Some frag =>
          match unescape frag encodeFragment with
          | None =>
              inr (fmt_Errorf_w
                     ("parse " +:+ rawURL +:+ ": " +:+ Error escape_error)
                     escape_error)
          | Some fragment =>
              inl (url.mkURL (url.Scheme parsed) (url.Opaque parsed)
                     (url.User parsed) (url.Host parsed) (url.Path parsed)
                     (url.RawPath parsed) (url.OmitHost parsed)
                     (url.ForceQuery parsed) (url.RawQuery parsed)
                     (str fragment)
                     (if bool_decide (escape fragment encodeFragment = frag)
                      then EmptyString else str frag))
          end
      end
  end.

(** *** net/url: [URL.String] *)

Definition EscapedPath (u : url.URL) : list ascii :=
  let raw := bytes (url.RawPath u) in
  if negb (bool_decide (raw = [])) && validEncoded raw encodePath
     && bool_decide (unescape raw encodePath = Some (bytes (url.Path u)))
  then raw
  else if bool_decide (url.Path u = "*") then ["*"%char]
  else escape (bytes (url.Path u)) encodePath.

Definition EscapedFragment (u : url.URL) : list ascii :=
  let raw := bytes (url.RawFragment u) in
  if negb (bool_decide (raw = [])) && validEncoded raw encodeFragment
     && bool_decide (unescape raw encodeFragment = Some (bytes (url.Fragment u)))
  then raw
  else escape (bytes (url.Fragment u)) encodeFragment.

Definition Userinfo_String (ui : url.Userinfo) : list ascii :=
  escape (bytes (url.username ui)) encodeUserPassword
  ++ (if url.passwordSet ui
      then ":"%char :: escape (bytes (url.password ui)) encodeUserPassword
      else []).

Definition URL_String (u : url.URL) : string :=
  let buf := if bool_decide (url.Scheme u = EmptyString) then []
             else bytes (url.Scheme u) ++ [":"%char] in
  let buf :=
    if negb (bool_decide (url.Opaque u = EmptyString))
    then buf ++ bytes (url.Opaque u)
    else
      let has_host := negb (bool_decide (url.Host u = EmptyString)) in
      let has_user := bool_decide (is_Some (url.User u)) in
      let buf :=
        if negb (bool_decide (url.Scheme u = EmptyString)) || has_host || has_user
        then
          if url.OmitHost u && negb has_host && negb has_user then buf
          else
            let buf :=
              if has_host || negb (bool_decide (url.Path u = EmptyString))
                 || has_user
              then buf ++ bytes "//" else buf in
            let buf :=
              match url.User u with
              | Some ui => buf ++ Userinfo_String ui ++ ["@"%char]
              | None => buf
              end in
            if has_host then buf ++ escape (bytes (url.Host u)) encodeHost
            else buf
        else buf in
      let path := EscapedPath u in
      let buf :=
        if negb (bool_decide (path = [])) && negb (has_prefix ["/"%char] path)
           && has_host
        then buf ++ ["/"%char] else buf in
      let buf :=
        if bool_decide (buf = [])
           && bool_decide (":"%char ∈ fst (cut "/" path))
        then buf ++ bytes "./" else buf in
      buf ++ path in
  let buf :=
    if url.ForceQuery u || negb (bool_decide (url.RawQuery u = EmptyString))
    then buf ++ ["?"%char] ++ bytes (url.RawQuery u) else buf in
  let buf :=
    if negb (bool_decide (url.Fragment u = EmptyString))
    then buf ++ ["#"%char] ++ EscapedFragment u else buf in
  str buf.

(** *** net/url: query strings *)

(** One turn of the loop of [parseQuery], on the text [key] of one pair. *)
Definition parse_pair (acc : url.Values * option error) (key : list ascii)
    : url.Values * option error :=
  let '(m, err) := acc in
  if bool_decide (";"%char ∈ key) then
    (m, Some (errors_New "invalid semicolon separator in query"))
  else if bool_decide (key = []) then (m, err)
  else
    let '(key, value) := cut "="%char key in
    match unescape key encodeQueryComponent with
    | None => (m, Some (default escape_error err))
    | Some key =>
        match unescape (default [] value) encodeQueryComponent with
        | None => (m, Some (default escape_error err))
        | Some value =>
            (<[str key := default [] (m !! str key) ++ [str value]]> m, err)
        end
    end.

Definition ParseQuery (query : string) : url.Values * option error :=
  foldl parse_pair (∅, None) (split "&" (bytes query)).

Definition QueryEscape (s : string) : list ascii :=
  escape (bytes s) encodeQueryComponent.

Definition Encode (v : url.Values) : string :=
  let keys := merge_sort (fun a b => String.leb a b) (fst <$> map_to_list v) in
  str (foldl (fun buf k =>
                foldl (fun buf value =>
                         (if bool_decide (0 < length buf) then buf ++ ["&"%char]
                          else buf)
                         ++ QueryEscape k ++ ["="%char] ++ QueryEscape value)
                      buf (default [] (v !! k)))
             [] keys).

#[local] Instance url_package : url.Package := {|
  url.Parse := Parse;
  url.String := URL_String;
  url.ParseQuery := ParseQuery;
  url.Encode := Encode
|}.

(** *** text/template, for template bodies made of text, of actions of
    one command over fields of the data ([.Name], [.A.B]), string
    constants, the functions of the function map and the comparison [eq] on
    strings, and of [if] with an optional [else]. Every other construct of
    the template language (pipelines, variables, numbers, the other
    keywords and predefined functions, trim markers, comments, printing a
    structure) is answered with [unsupported]. *)

Inductive token :=
| TkSpace
| TkDot
| TkField (name : string)
| TkIdent (name : string)
| TkString (s : string).

Definition is_space (c : ascii) : bool :=
  bool_decide (c = " "%char) || in_range 9 10 c || bool_decide (c = "013"%char).

Definition is_word_byte (c : ascii) : bool :=
  is_alnum c || bool_decide (c = "_"%char).

Fixpoint span (p : ascii -> bool) (s : list ascii) : list ascii * list ascii :=
  match s with
  | [] => ([], [])
  | c :: rest =>
      if p c then let (taken, more) := span p rest in (c :: taken, more)
      else ([], s)
  end.

(** What may follow a field or an identifier inside an action. *)
Definition at_terminator (s : list ascii) : bool :=
  match s with
  | [] => true
  | c :: _ => is_space c || bool_decide (c = "."%char) || has_prefix (bytes "}}") s
  end.

Definition cons_token (t : token) (r : list token * list ascii + error)
    : list token * list ascii + error :=
  match r with
  | inl (toks, more) => inl (t :: toks, more)
  | inr err => inr err
  end.

(** The tokens of an action up to its closing delimiter, and the text
    after the delimiter. *)
Fixpoint lex_action (fuel : nat) (s : list ascii)
    : list token * list ascii + error :=
  match fuel with
  | 0 => inr unsupported
  | S fuel' =>
      match s with
      | [] => inr (errors_New "unclosed action")
      | c :: rest =>
          if has_prefix (bytes "}}") s then inl ([], drop 2 s)
          else if is_space c then
            cons_token TkSpace (lex_action fuel' (snd (span is_space s)))
          else if bool_decide (c = "."%char) then
            let (name, more) := span is_word_byte rest in
            if negb (at_terminator more) then inr unsupported
            else cons_token
                   (if bool_decide (name = []) then TkDot else TkField (str name))
                   (lex_action fuel' more)
          else if is_alpha c || bool_decide (c = "_"%char) then
            let (name, more) := span is_word_byte s in
            if negb (at_terminator more) then inr unsupported
            else cons_token (TkIdent (str name)) (lex_action fuel' more)
          else if bool_decide (c = "`"%char) then
            match cut "`" rest with
            | (body, Some more) =>
                cons_token (TkString (str body)) (lex_action fuel' more)
            | _ => inr (errors_New "unterminated raw quoted string")
            end
          else if bool_decide (c = dquote) then
            match cut dquote rest with
            | (body, Some more) =>
                if existsb (fun b => bool_decide (b = "\"%char) || in_range 10 10 b) body
                then inr unsupported
                else cons_token (TkString (str body)) (lex_action fuel' more)
            | _ => inr (errors_New "unterminated quoted string")
            end
          else inr unsupported
      end
  end.

Inductive item :=
| IText (s : string)
| IAction (toks : list token).

(** The text before the first opening delimiter, and the text after it. *)
Fixpoint cut_delim (s : list ascii) : list ascii * option (list ascii) :=
  match s with
  | [] => ([], None)
  | c :: rest =>
      if has_prefix (bytes "{{") s then ([], Some (drop 2 s))
      else let (before, after) := cut_delim rest in (c :: before, after)
  end.

Definition text_item (s : list ascii) : list item :=
  if bool_decide (s = []) then [] else [IText (str s)].

Fixpoint lex (fuel : nat) (s : list ascii) : list item + error :=
  match fuel with
  | 0 => inr unsupported
  | S fuel' =>
      match cut_delim s with
      | (text, None) => inl (text_item text)
      | (text, Some after) =>
          match lex_action (S (length after)) after with
          | inr err => inr err
          | inl (toks, more) =>
              match lex fuel' more with
              | inr err => inr err
              | inl items => inl (text_item text ++ IAction toks :: items)
              end
          end
      end
  end.

Inductive arg :=
| AField (chain : list string)
| AString (s : string)
| AIdent (name : string).

#[warnings="-register-all"]
Inductive node :=
| NText (s : string)
| NAction (cmd : list arg)
| NIf (cond : list arg) (yes no : list node).

(** The tokens between two spaces. *)
Fixpoint groups (toks : list token) : list (list token) :=
  match toks with
  | [] => [[]]
  | TkSpace :: rest => [] :: groups rest
  | t :: rest =>
      match groups rest with
      | g :: gs => (t :: g) :: gs
      | [] => [[t]]
      end
  end.

Definition field_name (t : token) : option string :=
  match t with TkField name => Some name | _ => None end.

Definition other_words : list string :=
  ["and"; "call"; "html"; "index"; "slice"; "js"; "len"; "not"; "or"; "print";
   "printf"; "println"; "urlquery"; "ge"; "gt"; "le"; "lt"; "ne";
   "true"; "false"; "nil"; "range"; "with"; "define"; "template"; "block";
   "break"; "continue"].

Definition operand (funcs : list string) (g : list token) : arg + error :=
  match g with
  | [TkIdent name] =>
      if bool_decide (name = "eq") || bool_decide (name ∈ funcs)
      then inl (AIdent name)
      else if bool_decide (name ∈ other_words) then inr unsupported
      else inr (errors_New ("function " +:+ name +:+ " not defined"))
  | [TkString s] => inl (AString s)
  | _ =>
      match mapM field_name g with
      | Some (name :: names) => inl (AField (name :: names))
      | _ => inr unsupported
      end
  end.

Fixpoint operands (funcs : list string) (gs : list (list token))
    : list arg + error :=
  match gs with
  | [] => inl []
  | g :: rest =>
      match operand funcs g, operands funcs rest with
      | inl a, inl args => inl (a :: args)
      | inr err, _ => inr err
      | _, inr err => inr err
      end
  end.

Inductive pitem :=
| PText (s : string)
| PAction (cmd : list arg)
| PIf (cond : list arg)
| PElse
| PEnd.

Definition parse_item (funcs : list string) (it : item) : pitem + error :=
  match it with
  | IText s => inl (PText s)
  | IAction toks =>
      match filter (fun g => g <> []) (groups toks) with
      | [] => inr (errors_New "missing value for command")
      | [TkIdent "if"] :: cond =>
          if bool_decide (cond = []) then inr (errors_New "missing value for if")
          else match operands funcs cond with
               | inl args => inl (PIf args)
               | inr err => inr err
               end
      | [[TkIdent "else"]] => inl PElse
      | [TkIdent "else"] :: _ => inr unsupported
      | [[TkIdent "end"]] => inl PEnd
      | [TkIdent "end"] :: _ => inr (errors_New "unexpected token in end")
      | gs =>
          match operands funcs gs with
          | inl args => inl (PAction args)
          | inr err => inr err
          end
      end
  end.

(** An open [if]: its condition, the nodes of its first branch and of its
    [else] branch so far, last first. The list being built at the top
    level is a frame too. *)
Record frame := mkFrame {
  f_cond : list arg; f_yes : list node; f_in_else : bool; f_no : list node
}.

Definition push (n : node) (f : frame) : frame :=
  if f_in_else f then mkFrame (f_cond f) (f_yes f) true (n :: f_no f)
  else mkFrame (f_cond f) (n :: f_yes f) false (f_no f).

Fixpoint build (funcs : list string) (items : list item) (top : frame)
    (below : list frame) : list node + error :=
  match items with
  | [] =>
      match below with
      | [] => inl (reverse (f_yes top))
      | _ => inr (errors_New "unexpected EOF")
      end
  | it :: rest =>
      match parse_item funcs it with
      | inr err => inr err
      | inl (PText s) => build funcs rest (push (NText s) top) below
      | inl (PAction cmd) => build funcs rest (push (NAction cmd) top) below
      | inl (PIf cond) =>
          build funcs rest (mkFrame cond [] false []) (top :: below)
      | inl PElse =>
          match below with
          | [] => inr (errors_New "unexpected else")
          | _ =>
              if f_in_else top then inr (errors_New "unexpected else")
              else build funcs rest
                     (mkFrame (f_cond top) (f_yes top) true (f_no top)) below
          end
      | inl PEnd =>
          match below with
          | [] => inr (errors_New "unexpected end")
          | parent :: below' =>
              build funcs rest
                (push (NIf (f_cond top) (reverse (f_yes top))
                           (reverse (f_no top))) parent)
                below'
          end
      end
  end.

Definition template_Parse (funcs : list string) (text : string)
    : list node + error :=
  match lex (S (String.length text)) (bytes text) with
  | inr err => inr err
  | inl items => build funcs items (mkFrame [] [] false []) []
  end.

(** Execution. [Eff] is a step of it: a value, an error, or a call of a
    function of the function map. *)
Inductive Eff (A : Type) : Type :=
| Pure (a : A)
| Raise (err : error)
| Invoke (name : string) (k : string -> Eff A).
Arguments Pure {A}.
Arguments Raise {A}.
Arguments Invoke {A}.

Fixpoint and_then {A B} (m : Eff A) (f : A -> Eff B) : Eff B :=
  match m with
  | Pure a => f a
  | Raise err => Raise err
  | Invoke name k => Invoke name (fun v => and_then (k v) f)
  end.

(** The values of an execution. *)
Inductive rvalue :=
| RStr (s : string)
| RBool (b : bool)
| RStruct (v : template.Value).

Definition of_value (v : template.Value) : rvalue :=
  match v with
  | template.Str s => RStr s
  | template.Struct _ _ => RStruct v
  end.

Fixpoint lookup_direct (name : string) (fields : list template.Field)
    : option template.Value :=
  match fields with
  | [] => None
  | template.mkField n _ v :: rest =>
      if bool_decide (n = name) then Some v else lookup_direct name rest
  end.

(** The field of a structure by name: its own fields first, then the
    fields of its embedded structures. *)
Fixpoint FieldByName (v : template.Value) (name : string)
    : option template.Value :=
  match v with
  | template.Str _ => None
  | template.Struct _ fields =>
      match lookup_direct name fields with
      | Some x => Some x
      | None =>
          (fix promoted (fs : list template.Field) : option template.Value :=
             match fs with
             | [] => None
             | template.mkField _ true sub :: rest =>
                 match FieldByName sub name with
                 | Some x => Some x
                 | None => promoted rest
                 end
             | _ :: rest => promoted rest
             end) fields
      end
  end.

Fixpoint eval_chain (v : template.Value) (chain : list string)
    : Eff template.Value :=
  match chain with
  | [] => Pure v
  | name :: rest =>
      match FieldByName v name with
      | Some x => eval_chain x rest
      | None => Raise (errors_New ("can't evaluate field " +:+ name))
      end
  end.

Definition eval_arg (dot : template.Value) (a : arg) : Eff rvalue :=
  match a with
  | AField chain => and_then (eval_chain dot chain) (fun v => Pure (of_value v))
  | AString s => Pure (RStr s)
  | AIdent name =>
      if bool_decide (name = "eq")
      then Raise (errors_New "wrong number of args for eq: want at least 1 got 0")
      else Invoke name (fun s => Pure (RStr s))
  end.

Fixpoint eval_args (dot : template.Value) (args : list arg) : Eff (list rvalue) :=
  match args with
  | [] => Pure []
  | a :: rest =>
      and_then (eval_arg dot a) (fun v =>
      and_then (eval_args dot rest) (fun vs => Pure (v :: vs)))
  end.

Definition as_string (v : rvalue) : option string :=
  match v with RStr s => Some s | _ => None end.

(** [eq arg1 arg2...] on strings: arg1 equals one of the others. *)
Definition eq_call (vs : list rvalue) : Eff rvalue :=
  match mapM as_string vs with
  | Some (s1 :: s2 :: rest) =>
      Pure (RBool (bool_decide (s1 ∈ s2 :: rest)))
  | Some [_] => Raise (errors_New "missing argument for comparison")
  | _ => Raise unsupported
  end.

Definition eval_command (dot : template.Value) (cmd : list arg) : Eff rvalue :=
  match cmd with
  | [] => Raise (errors_New "empty command")
  | AField chain :: args =>
      if bool_decide (args = []) then eval_arg dot (AField chain)
      else Raise (errors_New "field has arguments but cannot be invoked as function")
  | AString s :: args =>
      if bool_decide (args = []) then Pure (RStr s)
      else Raise (errors_New "can't give argument to non-function")
  | AIdent name :: args =>
      if bool_decide (name = "eq") then
        if bool_decide (args = [])
        then Raise (errors_New "wrong number of args for eq: want at least 1 got 0")
        else and_then (eval_args dot args) eq_call
      else if bool_decide (args = []) then Invoke name (fun s => Pure (RStr s))
      else Raise (errors_New ("wrong number of args for " +:+ name))
  end.

Definition print_value (v : rvalue) : Eff string :=
  match v with
  | RStr s => Pure s
  | RBool true => Pure "true"
  | RBool false => Pure "false"
  | RStruct _ => Raise unsupported
  end.

Definition is_true (v : rvalue) : bool :=
  match v with
  | RStr s => negb (bool_decide (s = EmptyString))
  | RBool b => b
  | RStruct _ => true
  end.

(** Executing a node appends to the buffer [buff]. *)
Fixpoint exec_node (dot : template.Value) (n : node) (buff : string) : Eff string :=
  let exec_list :=
    fix exec_list (l : list node) (buff : string) : Eff string :=
      match l with
      | [] => Pure buff
      | n :: rest =>
          and_then (exec_node dot n buff) (fun buff => exec_list rest buff)
      end in
  match n with
  | NText s => Pure (buff +:+ s)
  | NAction cmd =>
      and_then (eval_command dot cmd) (fun v =>
      and_then (print_value v) (fun s => Pure (buff +:+ s)))
  | NIf cond yes no =>
      and_then (eval_command dot cond) (fun v =>
      if is_true v then exec_list yes buff else exec_list no buff)
  end.

Fixpoint exec_nodes (dot : template.Value) (l : list node) (buff : string)
    : Eff string :=
  match l with
  | [] => Pure buff
  | n :: rest =>
      and_then (exec_node dot n buff) (fun buff => exec_nodes dot rest buff)
  end.

Fixpoint to_Exec (m : Eff string) : template.Exec :=
  match m with
  | Pure buff => template.Done buff None
  | Raise err => template.Done EmptyString (Some err)
  | Invoke name k => template.Call name (fun v => to_Exec (k v))
  end.

#[local] Instance template_engine : template.Engine := {|
  template.Template := list node;
  template.Parse := template_Parse;
  template.Execute := fun tmpl data => to_Exec (exec_nodes data tmpl EmptyString)
|}.

(** [Attachment.Validate], for templates without attachments. *)
#[local] Instance no_attachments : AttachmentModel := {|
  Attachment := Empty_set;
  Attachment_Validate := fun a => match a with end
|}.

(** A clock that reads the same instant, in UTC, at every reading. *)
Definition world_at (unixNano : Z) : World :=
  mkWorld (fun _ => time.mkTime unixNano 0) 0.

End Ref.

(** ** The template model file: the functions on the database

    The package-level handle [db], the logger and the attachment's
    [TemplateId] field are declared in other files of the package; gorm is
    a library. Each gorm call the code makes is one operation of the
    interface below, on the state of the database behind [db]: a query
    returns what its destination holds afterwards and the error, a write
    also returns the state it leaves. Go's nil slice and its empty slice
    are both the empty list. *)
Module gorm.

Class Database {AM : AttachmentModel} := {
  DB : Type;
  (** [err == gorm.ErrRecordNotFound] *)
  is_ErrRecordNotFound : error -> bool;
  (** [db.Where("user_id=?", uid).Find(&ts)], [ts] an empty slice *)
  FindTemplatesOfUser : DB -> Z -> list Template.t * option error;
  (** [db.Where("user_id=? and id=?", uid, id).Find(&t)], [t] the zero
      template *)
  FindTemplate : DB -> Z -> Z -> Template.t * option error;
  (** [db.Where("user_id=? and name=?", uid, n).Find(&t)], [t] the zero
      template *)
  FindTemplateByName : DB -> Z -> string -> Template.t * option error;
  (** [db.Where("template_id=?", id).Find(&attachments)] *)
  FindAttachments : DB -> Z -> list Attachment -> list Attachment * option error;
  (** [db.Save(t)] *)
  SaveTemplate : DB -> Template.t -> Template.t * option error * DB;
  (** [db.Save(&a)] *)
  SaveAttachment : DB -> Attachment -> Attachment * option error * DB;
  (** [db.Where("template_id=?", id).Delete(&Attachment{})] *)
  DeleteAttachments : DB -> Z -> option error * DB;
  (** [db.Where("user_id=?", uid).Delete(&Template{Id: id})] *)
  DeleteTemplateRow : DB -> Z -> Z -> option error * DB;
  (** [a.TemplateId = id] *)
  set_TemplateId : Attachment -> Z -> Attachment
}.

End gorm.

(** What the functions on the database act on: the database, the errors
    logged so far, and the clock. *)
Record Store {AM : AttachmentModel} {DBI : gorm.Database} := mkStore {
  database : gorm.DB;
  logged : list error;
  world : World
}.
Arguments mkStore {AM DBI}.

Section Database.
Context {MP : mail.Parser} {UP : url.Package} {TE : template.Engine}.
Context {AM : AttachmentModel} {DBI : gorm.Database}.

(** Computations on a store. *)
Definition St (A : Type) : Type := Store -> A * Store.

Definition st_ret {A} (a : A) : St A := fun s => (a, s).

Definition st_bind {A B} (m : St A) (k : A -> St B) : St B :=
  fun s => let (a, s') := m s in k a s'.

Notation "'let+' x ':=' m 'in' k" := (st_bind m (fun x => k))
  (at level 10, x name, m at level 100, k at level 200).

(** A computation that reads the clock only. *)
Definition st_lift {A} (m : M A) : St A :=
  fun s => let (a, w') := m (world s) in (a, mkStore (database s) (logged s) w').

(** A query. *)
Definition st_query {A} (q : gorm.DB -> A) : St A :=
  fun s => (q (database s), s).

(** A write. *)
Definition st_write {A} (op : gorm.DB -> A * gorm.DB) : St A :=
  fun s => let (a, db') := op (database s) in (a, mkStore db' (logged s) (world s)).

(** [log.Error(err)] *)
Definition log_Error (err : error) : St unit :=
  fun s => (tt, mkStore (database s) (logged s ++ [err]) (world s)).

(** [t.HeaderProfile = p] and [t.Attachments = l] *)
Definition set_HeaderProfile (t : Template.t) (p : string) : Template.t :=
  Template.mk AM (Template.Id t) (Template.UserId t) (Template.Name t)
    (Template.EnvelopeSender t) (Template.Subject t) (Template.Text t)
    (Template.HTML t) (Template.ModifiedDate t) (Template.Attachments t) p.

Definition set_Attachments (t : Template.t) (l : list Attachment) : Template.t :=
  Template.mk AM (Template.Id t) (Template.UserId t) (Template.Name t)
    (Template.EnvelopeSender t) (Template.Subject t) (Template.Text t)
    (Template.HTML t) (Template.ModifiedDate t) l (Template.HeaderProfile t).

(** [Template{}] *)
Definition Template_zero : Template.t :=
  Template.mk AM 0 0 EmptyString EmptyString EmptyString EmptyString EmptyString
    (time.mkTime 0 0) [] EmptyString.

(** [t.HeaderProfile = "default"] when [t.HeaderProfile] is the empty
    string. *)
Definition default_profile (t : Template.t) : Template.t :=
  if bool_decide (Template.HeaderProfile t = EmptyString)
  then set_HeaderProfile t "default" else t.

(** [err != nil && err != gorm.ErrRecordNotFound]: the error to report,
    if there is one. *)
Definition failure (err : option error) : option error :=
  match err with
  | Some e => if gorm.is_ErrRecordNotFound e then None else Some e
  | None => None
  end.

(** [if err == nil && len(l) == 0 { l = make([]Attachment, 0) }] *)
Definition make_if_empty (err : option error) (l : list Attachment)
    : list Attachment :=
  if bool_decide (err = None) && bool_decide (length l = 0) then [] else l.

(** The loop of [GetTemplates], over the indices of [ts]; it returns the
    slice, the error of the last lookup of attachments, and whether it
    returned from the function. An index is always in range. *)
Fixpoint GetTemplates_loop (indices : list nat) (ts : list Template.t)
    (err : option error) : St (list Template.t * option error * bool) :=
  match indices with
  | [] => st_ret (ts, err, false)
  | i :: rest =>
      match ts !! i with
      | None => st_ret (ts, err, false)
      | Some t =>
          let+ found := st_query (fun db =>
            gorm.FindAttachments db (Template.Id t) (Template.Attachments t)) in
          let err := snd found in
          let t := set_Attachments t (fst found) in
          let t := set_Attachments t (make_if_empty err (Template.Attachments t)) in
          match failure err with
          | Some e =>
              let+ _ := log_Error e in
              st_ret (<[i := t]> ts, Some e, true)
          | None =>
              let t := default_profile t in
              GetTemplates_loop rest (<[i := t]> ts) err
          end
      end
  end.

Definition GetTemplates (uid : Z) : St (list Template.t * option error) :=
  let+ found := st_query (fun db => gorm.FindTemplatesOfUser db uid) in
  let ts := fst found in
  match snd found with
  | Some err =>
      let+ _ := log_Error err in
      st_ret (ts, Some err)
  | None =>
      let+ res := GetTemplates_loop (seq 0 (length ts)) ts None in
      st_ret (fst (fst res), snd (fst res))
  end.

(** What [GetTemplate] and [GetTemplateByName] do once the row was looked
    up. *)
Definition load_template (found : Template.t * option error)
    : St (Template.t * option error) :=
  let t := fst found in
  match snd found with
  | Some err =>
      let+ _ := log_Error err in
      st_ret (t, Some err)
  | None =>
      let+ found := st_query (fun db =>
        gorm.FindAttachments db (Template.Id t) (Template.Attachments t)) in
      let err := snd found in
      let t := set_Attachments t (fst found) in
      match failure err with
      | Some e =>
          let+ _ := log_Error e in
          st_ret (t, Some e)
      | None =>
          let t := set_Attachments t (make_if_empty err (Template.Attachments t)) in
          let t := default_profile t in
          st_ret (t, err)
      end
  end.

Definition GetTemplate (id uid : Z) : St (Template.t * option error) :=
  let+ found := st_query (fun db => gorm.FindTemplate db uid id) in
  load_template found.

Definition GetTemplateByName (n : string) (uid : Z)
    : St (Template.t * option error) :=
  let+ found := st_query (fun db => gorm.FindTemplateByName db uid n) in
  load_template found.

(** The loop that saves the attachments, in [PostTemplate] and in
    [PutTemplate]: it returns the template, whose attachments it changes in
    place, and the error it stopped at. *)
Fixpoint save_attachments (indices : list nat) (t : Template.t)
    : St (Template.t * option error) :=
  match indices with
  | [] => st_ret (t, None)
  | i :: rest =>
      match Template.Attachments t !! i with
      | None => st_ret (t, None)
      | Some a =>
          let a := gorm.set_TemplateId a (Template.Id t) in
          let+ saved := st_write (fun db =>
            let '(a', err, db') := gorm.SaveAttachment db a in ((a', err), db')) in
          let t := set_Attachments t (<[i := fst saved]> (Template.Attachments t)) in
          match snd saved with
          | Some err =>
              let+ _ := log_Error err in
              st_ret (t, Some err)
          | None => save_attachments rest t
          end
      end
  end.

(** [PostTemplate] returns the error; the template it was given a pointer
    to is returned with it, as the call leaves it. *)
Definition PostTemplate (t : Template.t) : St (Template.t * option error) :=
  let t := default_profile t in
  let+ invalid := st_lift (Template.Validate t) in
  match invalid with
  | Some err => st_ret (t, Some err)
  | None =>
      let+ saved := st_write (fun db =>
        let '(t', err, db') := gorm.SaveTemplate db t in ((t', err), db')) in
      let t := fst saved in
      match snd saved with
      | Some err =>
          let+ _ := log_Error err in
          st_ret (t, Some err)
      | None =>
          save_attachments (seq 0 (length (Template.Attachments t))) t
      end
  end.

Definition PutTemplate (t : Template.t) : St (Template.t * option error) :=
  let t := default_profile t in
  let+ invalid := st_lift (Template.Validate t) in
  match invalid with
  | Some err => st_ret (t, Some err)
  | None =>
      let+ err := st_write (fun db => gorm.DeleteAttachments db (Template.Id t)) in
      match failure err with
      | Some e =>
          let+ _ := log_Error e in
          st_ret (t, Some e)
      | None =>
          let+ res :=
            save_attachments (seq 0 (length (Template.Attachments t))) t in
          let t := fst res in
          match snd res with
          | Some err => st_ret (t, Some err)
          | None =>
              let+ saved := st_write (fun db =>
                let '(t', err, db') := gorm.SaveTemplate db t in
                ((t', err), db')) in
              let t := fst saved in
              match snd saved with
              | Some err =>
                  let+ _ := log_Error err in
                  st_ret (t, Some err)
              | None => st_ret (t, None)
              end
          end
      end
  end.

Definition DeleteTemplate (id uid : Z) : St (option error) :=
  let+ err := st_write (fun db => gorm.DeleteAttachments db id) in
  match failure err with
  | Some e =>
      let+ _ := log_Error e in
      st_ret (Some e)
  | None =>
      let+ err := st_write (fun db => gorm.DeleteTemplateRow db uid id) in
      match err with
      | Some err =>
          let+ _ := log_Error err in
          st_ret (Some err)
      | None => st_ret None
      end
  end.

End Database.

(** An in-memory database to run the functions on: one table of
    templates, which have no attachments. A lookup by id or by name of a
    row that is not there reports record-not-found; everything else
    succeeds. *)
Module RefDB.

Definition ErrRecordNotFound : error := errors_New "record not found".

Definition row : Type := Template.t (AM := Ref.no_attachments).

Definition zero : row :=
  Template.mk Ref.no_attachments 0 0 EmptyString EmptyString EmptyString
    EmptyString EmptyString (time.mkTime 0 0) [] EmptyString.

Definition first_row (p : row -> bool) (table : list row) : row * option error :=
  match List.find p table with
  | Some t => (t, None)
  | None => (zero, Some ErrRecordNotFound)
  end.

#[local] Instance in_memory : gorm.Database (AM := Ref.no_attachments) := {|
  gorm.DB := list row;
  gorm.is_ErrRecordNotFound := fun e =>
    match e with
    | errors_New text => String.eqb text "record not found"
    | fmt_Errorf_w _ _ => false
    end;
  gorm.FindTemplatesOfUser := fun table uid =>
    (List.filter (fun t => Template.UserId t =? uid)%Z table, None);
  gorm.FindTemplate := fun table uid id =>
    first_row (fun t => (Template.UserId t =? uid)%Z && (Template.Id t =? id)%Z)
      table;
  gorm.FindTemplateByName := fun table uid n =>
    first_row (fun t => (Template.UserId t =? uid)%Z
                        && String.eqb (Template.Name t) n) table;
  gorm.FindAttachments := fun _ _ l => (l, None);
  gorm.SaveTemplate := fun table t =>
    (t, None,
     List.filter (fun t' => negb (Template.Id t' =? Template.Id t)%Z) table ++ [t]);
  gorm.SaveAttachment := fun table a => (a, None, table);
  gorm.DeleteAttachments := fun table _ => (None, table);
  gorm.DeleteTemplateRow := fun table uid id =>
    (None,
     List.filter (fun t => negb ((Template.UserId t =? uid)%Z
                                 && (Template.Id t =? id)%Z)) table);
  gorm.set_TemplateId := fun a _ => a
|}.

(** A store with the given table, nothing logged and the clock at
    noon. *)
Definition store (table : list row) : Store :=
  mkStore (DBI := in_memory) table [] (Ref.world_at 43200000000000).

(** A row of before header profiles were introduced, and a template that
    has no name. *)
Definition legacy : row :=
  Template.mk Ref.no_attachments 7 1 "Quarterly review" EmptyString "Subject"
    "Hello" EmptyString (time.mkTime 0 0) [] EmptyString.

Definition unnamed : row :=
  Template.mk Ref.no_attachments 8 1 EmptyString EmptyString "Subject"
    "Hello" EmptyString (time.mkTime 0 0) [] "outlook".

(** The same database behind a driver whose lookup of attachments returns
    the given error for the template of the given id. *)
Definition with_lookup_error (id : Z) (err : error)
    : gorm.Database (AM := Ref.no_attachments) := {|
  gorm.DB := list row;
  gorm.is_ErrRecordNotFound := gorm.is_ErrRecordNotFound (Database := in_memory);
  gorm.FindTemplatesOfUser := gorm.FindTemplatesOfUser (Database := in_memory);
  gorm.FindTemplate := gorm.FindTemplate (Database := in_memory);
  gorm.FindTemplateByName := gorm.FindTemplateByName (Database := in_memory);
  gorm.FindAttachments := fun _ template_id l =>
    (l, if (template_id =? id)%Z then Some err else None);
  gorm.SaveTemplate := gorm.SaveTemplate (Database := in_memory);
  gorm.SaveAttachment := gorm.SaveAttachment (Database := in_memory);
  gorm.DeleteAttachments := gorm.DeleteAttachments (Database := in_memory);
  gorm.DeleteTemplateRow := gorm.DeleteTemplateRow (Database := in_memory);
  gorm.set_TemplateId := gorm.set_TemplateId (Database := in_memory)
|}.

(** A row with a header profile, and a store whose driver reports
    record-not-found for the attachments of the row [legacy]. *)
Definition recent : row :=
  Template.mk Ref.no_attachments 9 1 "Welcome" EmptyString "Subject"
    "Hello" EmptyString (time.mkTime 0 0) [] "outlook".

Definition store_without_attachments (table : list row) : Store :=
  mkStore (DBI := with_lookup_error 7 ErrRecordNotFound) table []
    (Ref.world_at 43200000000000).

End RefDB.

(** An attachment model to run the loop of [Validate] on: an attachment
    is its file name, and one without a name is refused. *)
Module RefAttachment.

Definition ErrNoName : error := errors_New "attachment has no name".

#[local] Instance named : AttachmentModel := {|
  Attachment := string;
  Attachment_Validate := fun a =>
    ret (if bool_decide (a = EmptyString) then Some ErrNoName else None)
|}.

End RefAttachment.

(** * Properties *)

(** ** Statement vocabulary *)

(** The profile name [GetHeadersForProfile] goes on with: the name given
    when the registry has it, and default otherwise. *)
Definition resolved_profile (profileName : string) : string :=
  if bool_decide (is_Some (PredefinedHeaderProfiles !! profileName))
  then profileName else "default".

(** The bytes of a string are all bytes of [charset]. *)
Definition over_charset (s : string) : Prop :=
  Forall (fun c => c ∈ list_ascii_of_string charset) (list_ascii_of_string s).

(** No two slashes in a row. *)
Fixpoint no_double_slash (l : list ascii) : Prop :=
  match l with
  | a :: (b :: _) as rest => ~ (a = path.slash /\ b = path.slash) /\ no_double_slash rest
  | _ => True
  end.

(** A buffer [Clean] may hold: no two slashes in a row, and no slash at the
    end unless the buffer is the root alone. *)
Definition tidy (rooted : bool) (l : list ascii) : Prop :=
  no_double_slash l
  /\ (last l = Some path.slash -> l = [path.slash] /\ rooted = true).

(** The invariant of the loop of [Clean]. *)
Definition clean_inv (rooted : bool) (out : list ascii) (dotdot : nat) : Prop :=
  tidy rooted out
  /\ tidy rooted (take dotdot out)
  /\ dotdot <= length out
  /\ (rooted = true -> head out = Some path.slash /\ dotdot = 1).

(** The element [Join] appends. *)
Definition track : list ascii := list_ascii_of_string "track".

Section Vocabulary.
Context {MP : mail.Parser} {UP : url.Package} {TE : template.Engine}.
Context {T : Type} {TC : TemplateContext T}.

(** The query of the phishing and of the tracking URL: the parameters of
    the rendered URL with the recipient key set. *)
Definition recipient_query (parsed : url.URL) (rid : string) : url.Values :=
  url.Values_Set (url.Query parsed) RecipientParameter rid.

Definition phishing_url (parsed : url.URL) (rid : string) : url.URL :=
  url.set_RawQuery parsed (url.Encode (recipient_query parsed rid)).

Definition tracking_url (parsed : url.URL) (rid : string) : url.URL :=
  url.set_RawQuery
    (url.set_Path parsed (path.Join [url.Path parsed; "/track"]))
    (url.Encode (recipient_query parsed rid)).

Definition base_url (parsed : url.URL) : url.URL :=
  url.set_RawQuery (url.set_Path parsed EmptyString) EmptyString.

(** The three ways a call can go wrong, and the one way it goes right. *)
Inductive outcome (ctx : T) (r : BaseRecipient.t) (rid : string) (w : World)
    : PhishingTemplateContext.t * option error * World -> Prop :=
| bad_address err :
    mail.ParseAddress (getFromAddress ctx) = inr err ->
    outcome ctx r rid w
      (PhishingTemplateContext.zero,
       Some (fmt_Errorf_w
               ("failed to parse from address '" +:+ getFromAddress ctx
                +:+ "': " +:+ Error err) err),
       w)
| bad_template f out err w' :
    mail.ParseAddress (getFromAddress ctx) = inl f ->
    ExecuteTemplate (getBaseURL ctx) (BaseRecipient.reflect r) w
      = (out, Some err, w') ->
    outcome ctx r rid w
      (PhishingTemplateContext.zero,
       Some (fmt_Errorf_w
               ("failed to execute base URL template: " +:+ Error err) err),
       w')
| bad_url f templateURL err w' :
    mail.ParseAddress (getFromAddress ctx) = inl f ->
    ExecuteTemplate (getBaseURL ctx) (BaseRecipient.reflect r) w
      = (templateURL, None, w') ->
    url.Parse templateURL = inr err ->
    outcome ctx r rid w
      (PhishingTemplateContext.zero,
       Some (fmt_Errorf_w
               ("failed to parse templated base URL '" +:+ templateURL
                +:+ "': " +:+ Error err) err),
       w')
| built f templateURL parsed w' :
    mail.ParseAddress (getFromAddress ctx) = inl f ->
    ExecuteTemplate (getBaseURL ctx) (BaseRecipient.reflect r) w
      = (templateURL, None, w') ->
    url.Parse templateURL = inl parsed ->
    outcome ctx r rid w
      (PhishingTemplateContext.mk
         (if bool_decide (mail.Name f = EmptyString)
          then mail.Address f else mail.Name f)
         (url.String (phishing_url parsed rid))
         ("<img alt='' style='display: none' src='"
          +:+ url.String (tracking_url parsed rid) +:+ "'/>")
         (url.String (tracking_url parsed rid))
         rid
         (url.String (base_url parsed))
         r,
       None,
       w').

End Vocabulary.



(** The recipient of the validator, and a clock that first reads noon and
    then one minute past noon, in UTC. *)
Definition recipient : BaseRecipient.t :=
  BaseRecipient.mk "foo@bar.com" "Foo" "Bar" "Test".

Definition noon : Z := 43200000000000.

Definition noon_then_later : World :=
  mkWorld (fun n => time.mkTime (if n <? 1 then noon else noon + 60000000000) 0) 0.

(** The builder on the reference libraries. *)
Definition build (fromAddress baseURL : string) (rid : string)
    : PhishingTemplateContext.t * option error :=
  fst (NewPhishingTemplateContext
         (MP := Ref.mail_parser) (UP := Ref.url_package)
         (TE := Ref.template_engine)
         (ValidationContext.mk fromAddress baseURL) recipient rid
         (Ref.world_at noon)).

(** The context [ValidateTemplate] builds when the libraries read the
    address foo@bar.com as [f] and the base URL as [parsed]. *)
Definition validation_context {UP : url.Package}
    (f : mail.address) (parsed : url.URL) : PhishingTemplateContext.t :=
  PhishingTemplateContext.mk
    (if bool_decide (mail.Name f = EmptyString)
     then mail.Address f else mail.Name f)
    (url.String (phishing_url parsed "validate123"))
    ("<img alt='' style='display: none' src='"
     +:+ url.String (tracking_url parsed "validate123") +:+ "'/>")
    (url.String (tracking_url parsed "validate123"))
    "validate123"
    (url.String (base_url parsed))
    recipient.

(** The library reads a URL it printed back with the path and the query
    it was printed from. *)
Definition read_back {UP : url.Package} (u : url.URL) : Prop :=
  exists u', url.Parse (url.String u) = inl u'
             /\ url.Path u' = url.Path u
             /\ url.RawQuery u' = url.RawQuery u.

(** What [GetTemplate] and [GetTemplateByName] return, and the store they
    leave, given what the query for the row returned: [found] is what the
    lookup of the attachments of that row returns, [loaded] the row with
    these attachments. *)
Definition lookup_outcome {AM : AttachmentModel} {DBI : gorm.Database}
    (s : Store) (row : Template.t * option error)
    (result : Template.t * option error * Store) : Prop :=
  let found :=
    gorm.FindAttachments (database s) (Template.Id (fst row))
      (Template.Attachments (fst row)) in
  let loaded := set_Attachments (fst row) (fst found) in
  let logging e := mkStore (database s) (logged s ++ [e]) (world s) in
  (forall e, snd row = Some e -> result = (fst row, Some e, logging e))
  /\ (snd row = None -> snd found = None ->
      result = (default_profile loaded, None, s))
  /\ (forall e, snd row = None -> snd found = Some e ->
        gorm.is_ErrRecordNotFound e = true ->
        result = (default_profile loaded, Some e, s))
  /\ (forall e, snd row = None -> snd found = Some e ->
        gorm.is_ErrRecordNotFound e = false ->
        result = (loaded, Some e, logging e))
  /\ (snd row = None -> failure (snd found) = None ->
      Template.HeaderProfile (fst (fst result)) <> EmptyString).

(** ** Strings and bytes *)

Lemma length_string_of_list_ascii (l : list ascii) :
  String.length (string_of_list_ascii l) = length l.
Proof. induction l as [|c l IH]; simpl; [reflexivity | now rewrite IH]. Qed.

Lemma get_elem_of (s : string) (n : nat) (c : ascii) :
  String.get n s = Some c -> c ∈ list_ascii_of_string s.
Proof.
  revert n; induction s as [|a s IH]; intros [|n] Hget; simpl in *;
    try discriminate.
  - injection Hget as ->. apply list_elem_of_here.
  - apply list_elem_of_further. eauto.
Qed.

Lemma get_is_Some (s : string) (n : nat) :
  n < String.length s -> is_Some (String.get n s).
Proof.
  revert n; induction s as [|a s IH]; intros [|n] Hlt; simpl in *;
    try lia; eauto.
  apply IH; lia.
Qed.

(** Reading [charset] at an index in range gives one of its bytes. *)
Lemma byte_at_charset (k : Z) :
  (0 <= k < Z.of_nat (String.length charset))%Z ->
  byte_at charset k ∈ list_ascii_of_string charset.
Proof.
  intros Hk. unfold byte_at.
  destruct (get_is_Some charset (Z.to_nat k)) as [c Hc]; [lia|].
  rewrite Hc. eapply get_elem_of; eassumption.
Qed.

(** ** generateBoundary *)

Section Boundary.
Context {R : rand.Source}.

(** The loop writes the cells it is given and no other; what it writes are
    bytes of [charset]. *)
Lemma fill_spec (k a : nat) (r : rand.Rand) (b : list ascii) :
  a + k <= length b ->
  length (fill (seq a k) r b) = length b
  /\ forall j c, fill (seq a k) r b !! j = Some c ->
       (a <= j < a + k -> c ∈ list_ascii_of_string charset)
       /\ (~ (a <= j < a + k) -> b !! j = Some c).
Proof.
  revert a r b; induction k as [|k IH]; intros a r b Hlen.
  - simpl. split; [reflexivity|]. intros j c Hj; split; [lia | auto].
  - change (seq a (S k)) with (a :: seq (S a) k). cbn [fill].
    pose proof (rand.Intn_range r (Z.of_nat (String.length charset))) as Hrange.
    destruct (rand.Intn r (Z.of_nat (String.length charset))) as [x r'].
    cbn [fst] in Hrange.
    destruct (IH (S a) r' (<[a := byte_at charset x]> b)) as [IHlen IHcells].
    { rewrite length_insert; lia. }
    rewrite length_insert in IHlen. split; [exact IHlen|].
    intros j c Hj. destruct (IHcells j c Hj) as [Hin Hout].
    assert (Hx : byte_at charset x ∈ list_ascii_of_string charset).
    { apply byte_at_charset, Hrange. reflexivity. }
    split.
    + intros Hrng. destruct (decide (j = a)) as [->|Hne].
      * rewrite list_lookup_insert_eq in Hout by lia.
        assert (Some (byte_at charset x) = Some c) as [= <-] by (apply Hout; lia).
        exact Hx.
      * apply Hin; lia.
    + intros Hrng. rewrite <- Hout by lia.
      rewrite list_lookup_insert_ne by lia. reflexivity.
Qed.

Lemma fill_in_charset (n : nat) (r : rand.Rand) :
  length (fill (seq 0 n) r (replicate n byte0)) = n
  /\ Forall (fun c => c ∈ list_ascii_of_string charset)
            (fill (seq 0 n) r (replicate n byte0)).
Proof.
  destruct (fill_spec n 0 r (replicate n byte0)) as [Hlen Hcells].
  { rewrite length_replicate; lia. }
  rewrite length_replicate in Hlen. split; [exact Hlen|].
  apply Forall_lookup. intros j c Hj.
  apply (Hcells j c Hj). apply lookup_lt_Some in Hj. lia.
Qed.

(** [generateBoundary] returns 30 bytes of [charset], and reads the clock
    once. *)
Lemma generateBoundary_spec (w : World) :
  String.length (fst (generateBoundary w)) = 30
  /\ over_charset (fst (generateBoundary w))
  /\ snd (generateBoundary w) = mkWorld (clock w) (S (reads w)).
Proof.
  unfold generateBoundary, bind, ret, time_Now, over_charset; simpl.
  destruct (fill_in_charset 30 (rand.New (time.UnixNano (clock w (reads w)))))
    as [Hlen Hall].
  rewrite length_string_of_list_ascii, list_ascii_of_string_of_list_ascii.
  auto.
Qed.

End Boundary.

(** ** GetHeadersForProfile *)

Lemma copy_headers_id (src : gmap string string) : copy_headers src = src.
Proof.
  unfold copy_headers.
  apply (map_fold_weak_ind (fun r m => r = m)); [reflexivity|].
  intros k v m r _ ->. reflexivity.
Qed.

(** The empty name is no key of the registry. *)
Lemma empty_name_unknown : PredefinedHeaderProfiles !! EmptyString = None.
Proof. vm_compute. reflexivity. Qed.

Section Headers.
Context {R : rand.Source}.

(** What [GetHeadersForProfile] returns, in terms of the resolved name. *)
Lemma GetHeadersForProfile_unfold (profileName : string) (w : World) :
  GetHeadersForProfile profileName w =
    let name := resolved_profile profileName in
    let static :=
      HeaderProfile.Headers
        (default HeaderProfile.zero (PredefinedHeaderProfiles !! name)) in
    let first := generateBoundary w in
    if bool_decide (name = "apple_mail") then
      let second := generateBoundary (snd first) in
      (<["Content-Type" := content_type ("Apple-Mail=_" +:+ fst second)]> static,
       "Apple-Mail=_" +:+ fst second, None, snd second)
    else
      (<["Content-Type" := content_type ("----=_NextPart_" +:+ fst first)]> static,
       "----=_NextPart_" +:+ fst first, None, snd first).
Proof.
  unfold GetHeadersForProfile, resolved_profile.
  generalize (@generateBoundary R); intros gb.
  destruct (PredefinedHeaderProfiles !! profileName) as [p|] eqn:Hp.
  - assert (profileName <> EmptyString) as Hne.
    { intros ->. rewrite empty_name_unknown in Hp. discriminate. }
    rewrite (bool_decide_eq_true_2 (is_Some (Some p))) by eauto.
    rewrite (bool_decide_eq_false_2 _ Hne). simpl. rewrite Hp. simpl.
    rewrite copy_headers_id. unfold bind, ret.
    destruct (gb w) as [s1 w1]. simpl.
    destruct (bool_decide (profileName = "apple_mail")); simpl.
    + destruct (gb w1) as [s2 w2]. reflexivity.
    + reflexivity.
  - rewrite (bool_decide_eq_false_2 (is_Some None)) by (intros [? ?]; discriminate).
    simpl. rewrite copy_headers_id. unfold bind, ret.
    destruct (gb w) as [s1 w1]. simpl. reflexivity.
Qed.

End Headers.

(** C1. A profile name that is no key of the registry (the empty name is
    one such) is resolved exactly as default is: apart from the
    Content-Type entry, whose value carries the boundary token of the
    call, the two header mappings are equal; both tokens carry the default
    prefix; with the same clock and generator the two results are equal
    altogether. No profile name at all makes [GetHeadersForProfile] return
    an error, and the empty name is one of the names the registry does not
    have. *)
Theorem GetHeadersForProfile_unknown_is_default {R : rand.Source}
    (profileName : string) (w w' : World) :
  PredefinedHeaderProfiles !! profileName = None ->
  let '(headers, boundary, _) := fst (GetHeadersForProfile profileName w) in
  let '(headers', boundary', _) := fst (GetHeadersForProfile "default" w') in
  delete "Content-Type" headers = delete "Content-Type" headers'
  /\ headers !! "Content-Type" = Some (content_type boundary)
  /\ headers' !! "Content-Type" = Some (content_type boundary')
  /\ (exists suffix suffix',
        boundary = "----=_NextPart_" +:+ suffix
        /\ boundary' = "----=_NextPart_" +:+ suffix')
  /\ (w = w' ->
      GetHeadersForProfile profileName w = GetHeadersForProfile "default" w')
  /\ (forall (anyName : string) (w0 : World),
        snd (fst (GetHeadersForProfile anyName w0)) = None)
  /\ PredefinedHeaderProfiles !! EmptyString = None.
Proof.
  intros Hunknown.
  assert (Hres : resolved_profile profileName = "default").
  { unfold resolved_profile. rewrite Hunknown.
    rewrite bool_decide_eq_false_2; [reflexivity|].
    intros [? ?]; discriminate. }
  assert (Hdef : resolved_profile "default" = "default") by reflexivity.
  rewrite !GetHeadersForProfile_unfold, Hres, Hdef. cbv zeta.
  rewrite (bool_decide_eq_false_2 ("default" = "apple_mail")) by discriminate.
  cbn [fst snd].
  split; [|split; [|split; [|split; [|split; [|split]]]]].
  - rewrite !delete_insert_eq. reflexivity.
  - apply lookup_insert_eq.
  - apply lookup_insert_eq.
  - eauto.
  - intros ->. reflexivity.
  - intros anyName w0. rewrite GetHeadersForProfile_unfold. cbv zeta.
    destruct (bool_decide (resolved_profile anyName = "apple_mail")); reflexivity.
  - exact empty_name_unknown.
Qed.

(** C3. Whatever the profile name, the mapping returned has a
    Content-Type entry whose value is the fixed text, an opening double
    quote, the returned boundary token and a closing double quote; the
    token is the prefix of the resolved profile (the Apple Mail one for
    apple_mail, the default one otherwise) followed by exactly 30 bytes of
    the alphanumeric [charset]. *)
Theorem GetHeadersForProfile_content_type {R : rand.Source}
    (profileName : string) (w : World) :
  let '(headers, boundary, _) := fst (GetHeadersForProfile profileName w) in
  headers !! "Content-Type" =
    Some ("multipart/alternative; boundary=" +:+
          String dquote (boundary +:+ String dquote EmptyString))
  /\ exists suffix,
       boundary =
         (if bool_decide (resolved_profile profileName = "apple_mail")
          then "Apple-Mail=_" else "----=_NextPart_") +:+ suffix
       /\ String.length suffix = 30
       /\ over_charset suffix.
Proof.
  rewrite GetHeadersForProfile_unfold. cbv zeta.
  destruct (bool_decide (resolved_profile profileName = "apple_mail")); cbn [fst snd].
  - split; [apply lookup_insert_eq|].
    destruct (generateBoundary_spec (snd (generateBoundary w))) as (Hlen & Hall & _).
    eauto.
  - split; [apply lookup_insert_eq|].
    destruct (generateBoundary_spec w) as (Hlen & Hall & _).
    eauto.
Qed.

(** C7. A template whose header profile is a non-empty name that is no
    key of the registry is refused by [Template.Validate] with
    [ErrInvalidHeaderProfile], before anything else is looked at; the same
    name given to [GetHeadersForProfile] returns no error and the headers
    of the default profile with the Content-Type of the call. *)
Theorem Validate_rejects_unknown_profile
    {R : rand.Source} {MP : mail.Parser} {UP : url.Package}
    {TE : template.Engine} {AM : AttachmentModel}
    (t : Template.t) (w w' : World) :
  Template.HeaderProfile t <> EmptyString ->
  PredefinedHeaderProfiles !! Template.HeaderProfile t = None ->
  Template.Validate t w = (Some ErrInvalidHeaderProfile, w)
  /\ let '(headers, boundary, err) :=
       fst (GetHeadersForProfile (Template.HeaderProfile t) w') in
     err = None
     /\ headers =
          <["Content-Type" := content_type boundary]>
            (HeaderProfile.Headers
               (default HeaderProfile.zero
                        (PredefinedHeaderProfiles !! "default"))).
Proof.
  intros Hne Hunknown. split.
  - unfold Template.Validate. rewrite Hunknown.
    rewrite (bool_decide_eq_false_2 _ Hne).
    rewrite (bool_decide_eq_false_2 (is_Some None)) by (intros [? ?]; discriminate).
    reflexivity.
  - rewrite GetHeadersForProfile_unfold. unfold resolved_profile.
    rewrite Hunknown.
    rewrite (bool_decide_eq_false_2 (is_Some None)) by (intros [? ?]; discriminate).
    cbv zeta.
    rewrite (bool_decide_eq_false_2 ("default" = "apple_mail")) by discriminate.
    cbn [fst snd]. split; reflexivity.
Qed.

(** ** path.Clean and path.Join *)

Lemma no_double_slash_app (l1 l2 : list ascii) :
  no_double_slash (l1 ++ l2) <->
  no_double_slash l1 /\ no_double_slash l2
  /\ ~ (last l1 = Some path.slash /\ head l2 = Some path.slash).
Proof.
  induction l1 as [|a [|b l1] IH].
  - simpl. split; [intros H; repeat split; [exact H | intros [[=] _]] | tauto].
  - destruct l2 as [|c l2]; simpl.
    + split; [intros _; repeat split; intros [_ [=]] | tauto].
    + split.
      * intros [Hab H]. repeat split; [exact H|].
        intros [[= ->] [= ->]]. tauto.
      * intros (_ & H & Hne). split; [|exact H].
        intros [-> ->]. apply Hne. split; reflexivity.
  - change (no_double_slash ((a :: b :: l1) ++ l2))
      with (~ (a = path.slash /\ b = path.slash)
            /\ no_double_slash ((b :: l1) ++ l2)).
    change (no_double_slash (a :: b :: l1))
      with (~ (a = path.slash /\ b = path.slash) /\ no_double_slash (b :: l1)).
    change (last (a :: b :: l1)) with (last (b :: l1)).
    rewrite IH. tauto.
Qed.

Lemma no_double_slash_take (n : nat) (l : list ascii) :
  no_double_slash l -> no_double_slash (take n l).
Proof.
  intros H. rewrite <- (take_drop n l) in H.
  apply no_double_slash_app in H. tauto.
Qed.

(** In a list without two slashes in a row, the byte before a slash is no
    slash. *)
Lemma no_double_slash_lookup (l : list ascii) (i : nat) :
  no_double_slash l -> l !! i = Some path.slash -> l !! S i <> Some path.slash.
Proof.
  revert i; induction l as [|a [|b l] IH]; intros i Hnds Hi Hsi.
  - discriminate.
  - destruct i; discriminate.
  - destruct Hnds as [Hab Hnds]. destruct i as [|i].
    + simpl in Hi, Hsi. apply Hab. split; congruence.
    + exact (IH i Hnds Hi Hsi).
Qed.

Lemma no_slash_no_double_slash (l : list ascii) :
  Forall (fun c => c <> path.slash) l -> no_double_slash l.
Proof.
  induction l as [|a l IH]; intros H; [exact I|].
  inversion H as [|? ? Ha Hl]; subst.
  destruct l as [|b l]; [exact I|].
  split; [tauto | auto].
Qed.

Lemma element_no_slash (p : list ascii) :
  Forall (fun c => c <> path.slash) (path.element p).
Proof.
  induction p as [|c p IH]; simpl; [constructor|].
  case_bool_decide; [constructor | constructor; assumption].
Qed.

Lemma last_no_slash (l : list ascii) :
  Forall (fun c => c <> path.slash) l -> last l <> Some path.slash.
Proof.
  intros H Hlast. apply last_Some in Hlast as [l' ->].
  apply Forall_app in H as [_ H]. inversion H; subst. congruence.
Qed.

(** Where the inner loop of the dot-dot case stops. *)
Lemma back_to_slash_spec (out : list ascii) (dotdot w0 : nat) :
  dotdot <= w0 ->
  dotdot <= path.back_to_slash out dotdot w0 <= w0
  /\ (path.back_to_slash out dotdot w0 = dotdot
      \/ out !! path.back_to_slash out dotdot w0 = Some path.slash).
Proof.
  induction w0 as [|w0 IH]; intros Hle; simpl.
  - split; [lia | left; lia].
  - case_bool_decide as Hlt; simpl.
    + case_bool_decide as Hslash; simpl.
      * split; [lia | right; assumption].
      * destruct IH as [Hrange Hstop]; [lia|]. split; [lia | assumption].
    + split; [lia | left; lia].
Qed.

Lemma tidy_snoc_slash (rooted : bool) (out : list ascii) :
  tidy rooted out -> out <> [path.slash] ->
  no_double_slash (out ++ [path.slash]).
Proof.
  intros [Hnds Hlast] Hne. apply no_double_slash_app.
  split; [exact Hnds|]. split; [exact I|].
  intros [Hl _]. apply Hne, Hlast, Hl.
Qed.

(** Appending a path element keeps a buffer tidy. *)
Lemma tidy_element (rooted : bool) (out elem : list ascii) :
  no_double_slash out ->
  elem <> [] -> Forall (fun c => c <> path.slash) elem ->
  tidy rooted (out ++ elem).
Proof.
  intros Hnds Hne Hall. split.
  - apply no_double_slash_app. split; [exact Hnds|].
    split; [apply no_slash_no_double_slash, Hall|].
    intros [_ Hhead]. destruct elem as [|c elem]; [congruence|].
    inversion Hall; subst. simpl in Hhead. congruence.
  - intros Hlast. exfalso.
    destruct elem as [|c elem _] using rev_ind; [congruence|].
    rewrite app_assoc, last_snoc in Hlast.
    apply Forall_app in Hall as [_ Hc]. inversion Hc; subst. congruence.
Qed.

Lemma clean_step_inv (rooted : bool) (c : ascii) (rest out : list ascii)
    (dotdot : nat) :
  clean_inv rooted out dotdot ->
  let '(_, out', dotdot') := path.clean_step rooted c rest out dotdot in
  clean_inv rooted out' dotdot'.
Proof.
  intros Hinv. pose proof Hinv as (Hout & Hpre & Hle & Hroot).
  assert (Helement :
    c <> path.slash ->
    clean_inv rooted
      ((if rooted && negb (bool_decide (length out = 1))
           || negb rooted && negb (bool_decide (length out = 0))
        then out ++ [path.slash] else out) ++ c :: path.element rest)
      dotdot).
  { intros Hc.
    assert (Helem : Forall (fun x => x <> path.slash) (c :: path.element rest))
      by (constructor; [exact Hc | apply element_no_slash]).
    match goal with
    | |- clean_inv _ (?x ++ _) _ => set (out1 := x)
    end.
    assert (Hout1 : no_double_slash out1 /\ take dotdot out1 = take dotdot out
                    /\ length out <= length out1
                    /\ (rooted = true -> head out1 = Some path.slash)).
    { subst out1. destruct Hout as [Hnds Hlast].
      destruct rooted; simpl.
      - destruct (Hroot eq_refl) as [Hhead ->].
        destruct (bool_decide_reflect (length out = 1)) as [Hlen|Hlen]; simpl.
        + repeat split; auto.
        + repeat split.
          * apply (tidy_snoc_slash true); [split; assumption|].
            intros ->. apply Hlen. reflexivity.
          * rewrite take_app_le by lia. reflexivity.
          * rewrite length_app. lia.
          * intros _. destruct out; [discriminate | exact Hhead].
      - destruct (bool_decide_reflect (length out = 0)) as [Hlen|Hlen]; simpl.
        + repeat split; auto. discriminate.
        + repeat split.
          * apply (tidy_snoc_slash false); [split; assumption|].
            intros ->. destruct (Hlast eq_refl) as [_ [=]].
          * rewrite take_app_le by lia. reflexivity.
          * rewrite length_app. lia.
          * discriminate. }
    destruct Hout1 as (Hnds1 & Htake1 & Hlen1 & Hhead1).
    split; [apply tidy_element; [exact Hnds1 | discriminate | exact Helem]|].
    split; [rewrite take_app_le by lia; rewrite Htake1; exact Hpre|].
    split; [rewrite length_app; lia|].
    intros Hr. split; [|apply Hroot, Hr].
    specialize (Hhead1 Hr). destruct out1; [discriminate | exact Hhead1]. }
  unfold path.clean_step.
  destruct (bool_decide_reflect (c = path.slash)) as [Hslash|Hslash];
    [exact Hinv|].
  destruct (bool_decide (c = path.dot) && path.at_end_or_slash rest);
    [exact Hinv|].
  destruct rest as [|d rest2]; [apply Helement, Hslash|].
  destruct (bool_decide (c = path.dot) && bool_decide (d = path.dot)
            && path.at_end_or_slash rest2); [|apply Helement, Hslash].
  destruct (bool_decide_reflect (dotdot < length out)) as [Hback|Hback].
  - (* backtrack *)
    destruct (back_to_slash_spec out dotdot (length out - 1)) as [Hrange Hstop];
      [lia|].
    set (w := path.back_to_slash out dotdot (length out - 1)) in *.
    assert (Htake : take dotdot (take w out) = take dotdot out).
    { rewrite take_take. f_equal. lia. }
    split; [|split; [rewrite Htake; exact Hpre|split]].
    + destruct Hstop as [Hw | Hw].
      * rewrite Hw. exact Hpre.
      * destruct Hout as [Hnds Hlast]. split; [apply no_double_slash_take, Hnds|].
        intros Hl. exfalso.
        destruct w as [|w']; [rewrite take_0 in Hl; discriminate|].
        rewrite last_lookup, length_take in Hl.
        replace (Nat.pred (S w' `min` length out)) with w' in Hl by lia.
        rewrite lookup_take_lt in Hl by lia.
        exact (no_double_slash_lookup out w' Hnds Hl Hw).
    + rewrite length_take. lia.
    + intros Hr. destruct (Hroot Hr) as [Hhead ->]. split; [|reflexivity].
      destruct out as [|a out]; [discriminate|].
      destruct w; [lia | exact Hhead].
  - destruct rooted; simpl; [exact Hinv|].
    (* not rooted: append a dot-dot element *)
    assert (Hdd : Forall (fun x => x <> path.slash) [path.dot; path.dot])
      by (repeat constructor; discriminate).
    match goal with
    | |- clean_inv _ (?x ++ _) _ => set (out1 := x)
    end.
    assert (Hnds1 : no_double_slash out1).
    { subst out1. destruct Hout as [Hnds Hlast].
      destruct (bool_decide_reflect (0 < length out)); [|exact Hnds].
      apply (tidy_snoc_slash false); [split; assumption|].
      intros ->. destruct (Hlast eq_refl) as [_ [=]]. }
    split; [apply tidy_element; [exact Hnds1 | discriminate | exact Hdd]|].
    split; [rewrite firstn_all; apply tidy_element;
            [exact Hnds1 | discriminate | exact Hdd]|].
    split; [lia | discriminate].
Qed.

Lemma clean_loop_inv (fuel : nat) (rooted : bool) (p out : list ascii)
    (dotdot : nat) :
  clean_inv rooted out dotdot ->
  clean_inv rooted (fst (path.clean_loop fuel rooted p out dotdot))
                   (snd (path.clean_loop fuel rooted p out dotdot)).
Proof.
  revert p out dotdot; induction fuel as [|fuel IH]; intros p out dotdot Hinv.
  - exact Hinv.
  - destruct p as [|c rest]; [exact Hinv|]. simpl.
    pose proof (clean_step_inv rooted c rest out dotdot Hinv) as Hstep.
    destruct (path.clean_step rooted c rest out dotdot) as [[p' out'] dotdot'].
    apply IH, Hstep.
Qed.

Lemma after_element_length (p : list ascii) :
  length (path.after_element p) <= length p.
Proof.
  induction p as [|c p IH]; simpl; [lia|].
  destruct (bool_decide (c = path.slash)); simpl; lia.
Qed.

(** Every turn of the loop reads at least one byte. *)
Lemma clean_step_length (rooted : bool) (c : ascii) (rest out : list ascii)
    (dotdot : nat) :
  length (fst (fst (path.clean_step rooted c rest out dotdot))) <= length rest.
Proof.
  pose proof (after_element_length rest) as Hafter.
  unfold path.clean_step.
  repeat match goal with
         | |- context [if ?b then _ else _] => destruct b
         | |- context [match ?l with [] => _ | _ :: _ => _ end] => destruct l
         end; simpl in *; lia.
Qed.

(** Fuel: [length p] turns are enough, and more change nothing. *)
Lemma clean_loop_fuel (f1 f2 : nat) (rooted : bool) (p out : list ascii)
    (dotdot : nat) :
  length p <= f1 -> length p <= f2 ->
  path.clean_loop f1 rooted p out dotdot = path.clean_loop f2 rooted p out dotdot.
Proof.
  revert f2 p out dotdot; induction f1 as [|f1 IH]; intros f2 p out dotdot H1 H2.
  - destruct p; [|simpl in H1; lia]. destruct f2; reflexivity.
  - destruct p as [|c rest]; [destruct f2; reflexivity|].
    destruct f2 as [|f2]; [simpl in H2; lia|]. simpl.
    pose proof (clean_step_length rooted c rest out dotdot) as Hlen.
    destruct (path.clean_step rooted c rest out dotdot) as [[p' out'] dotdot'].
    simpl in *. apply IH; lia.
Qed.

Lemma at_end_or_slash_app (rest z : list ascii) :
  path.at_end_or_slash (rest ++ path.slash :: z) = path.at_end_or_slash rest.
Proof. destruct rest; reflexivity. Qed.

Lemma element_app (rest z : list ascii) :
  path.element (rest ++ path.slash :: z) = path.element rest.
Proof.
  induction rest as [|c rest IH]; simpl; [reflexivity|].
  destruct (bool_decide (c = path.slash)); [reflexivity | now rewrite IH].
Qed.

Lemma after_element_app (rest z : list ascii) :
  path.after_element (rest ++ path.slash :: z)
  = path.after_element rest ++ path.slash :: z.
Proof.
  induction rest as [|c rest IH]; simpl; [reflexivity|].
  destruct (bool_decide (c = path.slash)); [reflexivity | exact IH].
Qed.

(** A turn of the loop does not look past the next slash. *)
Lemma clean_step_app (rooted : bool) (c : ascii) (rest z out : list ascii)
    (dotdot : nat) :
  path.clean_step rooted c (rest ++ path.slash :: z) out dotdot
  = (fst (fst (path.clean_step rooted c rest out dotdot)) ++ path.slash :: z,
     snd (fst (path.clean_step rooted c rest out dotdot)),
     snd (path.clean_step rooted c rest out dotdot)).
Proof.
  unfold path.clean_step.
  rewrite at_end_or_slash_app, element_app, after_element_app.
  destruct (bool_decide (c = path.slash)); [reflexivity|].
  destruct (bool_decide_reflect (c = path.dot)) as [Hc|Hc]; simpl.
  - destruct rest as [|d rest2]; simpl.
    + reflexivity.
    + destruct (bool_decide (d = path.slash)); [reflexivity|].
      rewrite at_end_or_slash_app.
      repeat match goal with
             | |- context [if ?b then _ else _] => destruct b
             end; reflexivity.
  - destruct rest as [|d rest2]; reflexivity.
Qed.

(** Cleaning up to a slash: the loop on [y ++ slash :: z] is the loop on
    [y] followed by the loop on [slash :: z]. *)
Lemma clean_loop_app (n : nat) (rooted : bool) (y z : list ascii) :
  length y <= n ->
  forall (f : nat) (out : list ascii) (dotdot : nat),
    length (y ++ path.slash :: z) <= f ->
    path.clean_loop f rooted (y ++ path.slash :: z) out dotdot
    = path.clean_loop f rooted (path.slash :: z)
        (fst (path.clean_loop n rooted y out dotdot))
        (snd (path.clean_loop n rooted y out dotdot)).
Proof.
  revert y; induction n as [|n IH]; intros y Hn f out dotdot Hf.
  - destruct y; [reflexivity | simpl in Hn; lia].
  - destruct y as [|c rest]; [reflexivity|].
    destruct f as [|f]; [simpl in Hf; lia|].
    change ((c :: rest) ++ path.slash :: z) with (c :: (rest ++ path.slash :: z)).
    cbn [path.clean_loop]. rewrite clean_step_app.
    pose proof (clean_step_length rooted c rest out dotdot) as Hlen.
    destruct (path.clean_step rooted c rest out dotdot) as [[p' out'] dotdot'].
    cbn [fst snd] in *. simpl in Hn, Hf. rewrite length_app in Hf. simpl in Hf.
    rewrite IH by (try rewrite length_app; simpl; lia).
    etransitivity; [apply (clean_loop_fuel f (S f)); simpl; lia | reflexivity].
Qed.

Lemma clean_inv_rooted : clean_inv true [path.slash] 1.
Proof.
  repeat split; simpl; auto.
Qed.

Lemma clean_inv_unrooted : clean_inv false [] 0.
Proof.
  repeat split; simpl; auto; discriminate.
Qed.

(** [Clean] never returns two slashes in a row. *)
Lemma Clean_bytes_no_double_slash (p : list ascii) :
  no_double_slash (path.Clean_bytes p).
Proof.
  destruct p as [|c rest]; [exact I|]. unfold path.Clean_bytes.
  destruct (bool_decide (c = path.slash)).
  - destruct (clean_loop_inv (length (c :: rest)) true rest [path.slash] 1
                clean_inv_rooted) as [[Hnds _] _].
    destruct (bool_decide _); [exact I | exact Hnds].
  - destruct (clean_loop_inv (length (c :: rest)) false (c :: rest) [] 0
                clean_inv_unrooted) as [[Hnds _] _].
    destruct (bool_decide _); [exact I | exact Hnds].
Qed.

(** The loop on the two slashes and the element that [Join] appends. *)
Lemma clean_loop_track (f : nat) (rooted : bool) (out : list ascii)
    (dotdot : nat) :
  7 <= f ->
  fst (path.clean_loop f rooted (path.slash :: path.slash :: track) out dotdot)
  = (if rooted && negb (bool_decide (length out = 1))
        || negb rooted && negb (bool_decide (length out = 0))
     then out ++ [path.slash] else out) ++ track.
Proof.
  intros Hf.
  rewrite (clean_loop_fuel f 7) by (simpl; lia).
  reflexivity.
Qed.

(** [Join] of a rooted path and /track, on bytes. *)
Lemma Clean_bytes_track_rooted (y : list ascii) :
  path.Clean_bytes (path.slash :: y ++ path.slash :: path.slash :: track)
  = (if bool_decide (path.Clean_bytes (path.slash :: y) = [path.slash])
     then [] else path.Clean_bytes (path.slash :: y))
    ++ path.slash :: track.
Proof.
  unfold path.Clean_bytes.
  rewrite (bool_decide_eq_true_2 (path.slash = path.slash)) by reflexivity.
  rewrite (clean_loop_app (length y)) by (simpl; rewrite ?length_app; simpl; lia).
  rewrite (clean_loop_fuel (length (path.slash :: y)) (length y))
    by (simpl; lia).
  pose proof (clean_loop_inv (length y) true y [path.slash] 1 clean_inv_rooted)
    as (_ & _ & _ & Hroot).
  destruct (path.clean_loop (length y) true y [path.slash] 1) as [o d].
  cbn [fst snd] in *. destruct (Hroot eq_refl) as [Hhead _].
  rewrite clean_loop_track by (simpl; rewrite ?length_app; simpl; lia).
  destruct o as [|a o]; [discriminate|]. injection Hhead as ->.
  rewrite (bool_decide_eq_false_2 (length (path.slash :: o) = 0)) by discriminate.
  simpl. destruct o as [|b o].
  - reflexivity.
  - rewrite (bool_decide_eq_false_2 (S (S (length o)) = 1)) by lia.
    rewrite (bool_decide_eq_false_2 (length _ = 0))
      by (rewrite !length_app; simpl; lia).
    rewrite (bool_decide_eq_false_2 (_ :: _ :: _ = [_])) by discriminate.
    simpl. rewrite <- app_assoc. reflexivity.
Qed.

(** [Join] of a path that is not rooted and /track, on bytes. *)
Lemma Clean_bytes_track_unrooted (c : ascii) (y : list ascii) :
  c <> path.slash ->
  path.Clean_bytes (c :: y ++ path.slash :: path.slash :: track) = track
  \/ exists pre,
       path.Clean_bytes (c :: y ++ path.slash :: path.slash :: track)
       = pre ++ path.slash :: track.
Proof.
  intros Hc. unfold path.Clean_bytes.
  rewrite (bool_decide_eq_false_2 _ Hc).
  change (c :: y ++ path.slash :: path.slash :: track)
    with ((c :: y) ++ path.slash :: path.slash :: track).
  rewrite (clean_loop_app (length (c :: y))) by (simpl; rewrite ?length_app; simpl; lia).
  destruct (path.clean_loop (length (c :: y)) false (c :: y) [] 0) as [o d].
  cbn [fst snd].
  rewrite clean_loop_track by (simpl; rewrite ?length_app; simpl; lia).
  simpl. destruct o as [|a o].
  - left. reflexivity.
  - right. exists (a :: o).
    rewrite (bool_decide_eq_false_2 (length (a :: o) = 0)) by discriminate.
    simpl. rewrite <- app_assoc. reflexivity.
Qed.

Lemma string_of_list_ascii_app (a b : list ascii) :
  string_of_list_ascii (a ++ b) = string_of_list_ascii a +:+ string_of_list_ascii b.
Proof. induction a as [|c a IH]; simpl; [reflexivity | now rewrite IH]. Qed.

(** What [Join] cleans when it joins a path that is not empty and /track. *)
Lemma Join_track_bytes (c : ascii) (rest : string) :
  path.Join [String c rest; "/track"]
  = string_of_list_ascii
      (path.Clean_bytes
         (c :: list_ascii_of_string rest ++ path.slash :: path.slash :: track)).
Proof.
  assert (Hbuf : path.join_buf [String c rest; "/track"]
                 = c :: list_ascii_of_string rest
                     ++ path.slash :: path.slash :: track).
  { unfold path.join_buf. cbn [foldl].
    rewrite (bool_decide_eq_false_2 (0 < length [])) by (simpl; lia).
    rewrite (bool_decide_eq_false_2 (String c rest = EmptyString)) by discriminate.
    cbn [orb negb app list_ascii_of_string].
    rewrite (bool_decide_eq_true_2 (0 < length (c :: _))) by (simpl; lia).
    cbn [orb]. simpl. rewrite <- app_assoc. reflexivity. }
  unfold path.Join. cbn [foldl].
  rewrite bool_decide_eq_false_2 by (simpl; lia).
  unfold path.Clean. rewrite Hbuf, list_ascii_of_string_of_list_ascii.
  reflexivity.
Qed.

(** [path.Join] of a path and /track: the result has no two slashes in a
    row; for the empty path it is /track; for a rooted path it is the
    cleaned path (the root counting as empty) followed by /track; in every
    case it is track or ends with /track. *)
Lemma Join_track (p : string) :
  no_double_slash (list_ascii_of_string (path.Join [p; "/track"]))
  /\ (p = EmptyString -> path.Join [p; "/track"] = "/track")
  /\ (forall rest, p = String path.slash rest ->
        path.Join [p; "/track"]
        = (if bool_decide (path.Clean p = "/") then EmptyString
           else path.Clean p) +:+ "/track")
  /\ (path.Join [p; "/track"] = "track"
      \/ exists pre, path.Join [p; "/track"] = pre +:+ "/track").
Proof.
  destruct p as [|c rest0].
  - assert (Hj : path.Join [EmptyString; "/track"] = "/track")
      by (vm_compute; reflexivity).
    rewrite Hj. split.
    { simpl. repeat (split; [intros [? ?]; discriminate|]). exact I. }
    split; [reflexivity|].
    split; [discriminate|]. right. exists EmptyString. reflexivity.
  - rewrite Join_track_bytes.
    split.
    { rewrite list_ascii_of_string_of_list_ascii.
      apply Clean_bytes_no_double_slash. }
    split; [discriminate|].
    cbn [list_ascii_of_string app].
    split.
    + intros rest [= -> ->].
      rewrite Clean_bytes_track_rooted, string_of_list_ascii_app.
      unfold path.Clean. cbn [list_ascii_of_string].
      f_equal.
      destruct (bool_decide_reflect
                  (path.Clean_bytes (path.slash :: list_ascii_of_string rest)
                   = [path.slash])) as [Heq|Hne].
      * rewrite Heq. reflexivity.
      * rewrite bool_decide_eq_false_2; [reflexivity|].
        intros Heq. apply Hne.
        apply (f_equal list_ascii_of_string) in Heq.
        rewrite list_ascii_of_string_of_list_ascii in Heq. exact Heq.
    + destruct (decide (c = path.slash)) as [->|Hc].
      * right. rewrite Clean_bytes_track_rooted, string_of_list_ascii_app.
        eexists. reflexivity.
      * destruct (Clean_bytes_track_unrooted c (list_ascii_of_string rest0) Hc)
          as [-> | [pre ->]].
        -- left. reflexivity.
        -- right. exists (string_of_list_ascii pre).
           rewrite string_of_list_ascii_app. reflexivity.
Qed.

(** ** NewPhishingTemplateContext *)

Section Builder.
Context {MP : mail.Parser} {UP : url.Package} {TE : template.Engine}.
Context {T : Type} {TC : TemplateContext T}.

Lemma NewPhishingTemplateContext_outcome (ctx : T) (r : BaseRecipient.t)
    (rid : string) (w : World) :
  outcome ctx r rid w (NewPhishingTemplateContext ctx r rid w).
Proof.
  unfold NewPhishingTemplateContext.
  destruct (mail.ParseAddress (getFromAddress ctx)) as [f|err] eqn:Hfrom.
  - unfold bind.
    destruct (ExecuteTemplate (getBaseURL ctx) (BaseRecipient.reflect r) w)
      as [[templateURL [err|]] w'] eqn:Hexec; cbn [fst snd].
    + eapply bad_template; eassumption.
    + destruct (url.Parse templateURL) as [parsed|err] eqn:Hparse.
      * eapply built; eassumption.
      * eapply bad_url; eassumption.
  - apply bad_address. assumption.
Qed.

End Builder.

Section BuilderClaims.
Context {MP : mail.Parser} {UP : url.Package} {TE : template.Engine}.
Context {T : Type} {TC : TemplateContext T}.

(** C8. When [NewPhishingTemplateContext] returns an error, the context it
    returns with it is the zero value, and the error comes from one of
    three places: the From address did not parse, the base URL template
    did not render, or the rendered URL did not parse. *)
Theorem NewPhishingTemplateContext_error_zero
    (ctx : T) (r : BaseRecipient.t) (rid : string) (w : World) :
  snd (fst (NewPhishingTemplateContext ctx r rid w)) <> None ->
  fst (fst (NewPhishingTemplateContext ctx r rid w)) = PhishingTemplateContext.zero
  /\ ((exists err, mail.ParseAddress (getFromAddress ctx) = inr err)
      \/ (exists err,
            snd (fst (ExecuteTemplate (getBaseURL ctx)
                        (BaseRecipient.reflect r) w)) = Some err)
      \/ (exists err,
            url.Parse (fst (fst (ExecuteTemplate (getBaseURL ctx)
                                   (BaseRecipient.reflect r) w))) = inr err)).
Proof.
  intros Herr.
  destruct (NewPhishingTemplateContext_outcome ctx r rid w)
    as [err Hfrom | f out err w' Hfrom Hexec | f templateURL err w' Hfrom Hexec Hparse
        | f templateURL parsed w' Hfrom Hexec Hparse];
    cbn [fst snd] in *.
  - split; [reflexivity | left; eauto].
  - split; [reflexivity | right; left]. rewrite Hexec. eauto.
  - split; [reflexivity | right; right]. rewrite Hexec. eauto.
  - congruence.
Qed.

(** C4. When the From address parses and the context is built, its From
    field is the display name of the address if that is not empty, and the
    bare address otherwise; so From is empty only if the parsed address
    is. *)
Theorem NewPhishingTemplateContext_From
    (ctx : T) (r : BaseRecipient.t) (rid : string) (w : World)
    (f : mail.address) :
  mail.ParseAddress (getFromAddress ctx) = inl f ->
  snd (fst (NewPhishingTemplateContext ctx r rid w)) = None ->
  let c := fst (fst (NewPhishingTemplateContext ctx r rid w)) in
  (mail.Name f <> EmptyString -> PhishingTemplateContext.From c = mail.Name f)
  /\ (mail.Name f = EmptyString ->
      PhishingTemplateContext.From c = mail.Address f)
  /\ (mail.Address f <> EmptyString ->
      PhishingTemplateContext.From c <> EmptyString).
Proof.
  intros Hf Hok.
  destruct (NewPhishingTemplateContext_outcome ctx r rid w)
    as [err Hfrom | f' out err w' Hfrom Hexec | f' templateURL err w' Hfrom Hexec Hparse
        | f' templateURL parsed w' Hfrom Hexec Hparse];
    cbn [fst snd] in *; try discriminate.
  assert (f' = f) as -> by congruence.
  cbn [PhishingTemplateContext.From].
  destruct (bool_decide_reflect (mail.Name f = EmptyString)) as [Hname|Hname];
    repeat split; intros; congruence.
Qed.

(** C6. In a context that was built, the URL field is the rendered URL,
    parsed, with its query replaced by the encoding of its own parameters
    (as [URL.Query] reads them) in which the recipient key holds the
    recipient id and nothing else, whatever it held before; every other key
    holds the values it held in the rendered URL. *)
Theorem NewPhishingTemplateContext_URL
    (ctx : T) (r : BaseRecipient.t) (rid : string) (w : World) :
  snd (fst (NewPhishingTemplateContext ctx r rid w)) = None ->
  exists templateURL parsed,
    fst (fst (ExecuteTemplate (getBaseURL ctx) (BaseRecipient.reflect r) w))
      = templateURL
    /\ url.Parse templateURL = inl parsed
    /\ PhishingTemplateContext.URL (fst (fst (NewPhishingTemplateContext ctx r rid w)))
       = url.String (url.set_RawQuery parsed
                       (url.Encode (recipient_query parsed rid)))
    /\ recipient_query parsed rid !! RecipientParameter = Some [rid]
    /\ url.Values_Get (recipient_query parsed rid) RecipientParameter = rid
    /\ forall key, key <> RecipientParameter ->
         recipient_query parsed rid !! key = url.Query parsed !! key.
Proof.
  intros Hok.
  destruct (NewPhishingTemplateContext_outcome ctx r rid w)
    as [err Hfrom | f' out err w' Hfrom Hexec | f' templateURL err w' Hfrom Hexec Hparse
        | f' templateURL parsed w' Hfrom Hexec Hparse];
    cbn [fst snd] in *; try discriminate.
  exists templateURL, parsed. rewrite Hexec. cbn [fst].
  unfold recipient_query, url.Values_Set, url.Values_Get.
  rewrite lookup_insert_eq.
  repeat split; try assumption.
  intros key Hkey. apply lookup_insert_ne. congruence.
Qed.

(** C2, as amended. In a context that was built, the TrackingURL is the
    library's print of the rendered URL, parsed, with its path replaced by
    [path.Join] of that path and /track and its query replaced by the query
    of the phishing URL. The joined path has no two slashes in a row; it
    is /track when the rendered path is empty; when the rendered path is
    rooted it is the cleaned rendered path (the root counting as empty)
    followed by /track, hence the rendered path itself followed by /track
    when that path is clean and not the root. What the string shows is the
    library's doing. When the library reads the two URLs it printed back
    with the path and the query they were printed from, the TrackingURL
    parses to a URL whose path is the joined path and whose query
    parameters are those of the URL field. When the rendered URL is
    opaque, and the library prints an opaque URL without looking at its
    path, the TrackingURL is the URL field, with no /track in it. *)
Theorem NewPhishingTemplateContext_TrackingURL
    (ctx : T) (r : BaseRecipient.t) (rid : string) (w : World) :
  snd (fst (NewPhishingTemplateContext ctx r rid w)) = None ->
  exists templateURL parsed,
    fst (fst (ExecuteTemplate (getBaseURL ctx) (BaseRecipient.reflect r) w))
      = templateURL
    /\ url.Parse templateURL = inl parsed
    /\ let c := fst (fst (NewPhishingTemplateContext ctx r rid w)) in
       let joined := path.Join [url.Path parsed; "/track"] in
       let query := url.Encode (recipient_query parsed rid) in
       let tracked := url.set_RawQuery (url.set_Path parsed joined) query in
       let phished := url.set_RawQuery parsed query in
       PhishingTemplateContext.TrackingURL c = url.String tracked
       /\ PhishingTemplateContext.URL c = url.String phished
       /\ no_double_slash (list_ascii_of_string joined)
       /\ (url.Path parsed = EmptyString -> joined = "/track")
       /\ (forall rest, url.Path parsed = String path.slash rest ->
             joined = (if bool_decide (path.Clean (url.Path parsed) = "/")
                       then EmptyString else path.Clean (url.Path parsed))
                      +:+ "/track")
       /\ (forall rest, url.Path parsed = String path.slash rest ->
             path.Clean (url.Path parsed) = url.Path parsed ->
             url.Path parsed <> "/" ->
             joined = url.Path parsed +:+ "/track")
       /\ (read_back tracked -> read_back phished ->
           exists tracking phishing,
             url.Parse (PhishingTemplateContext.TrackingURL c) = inl tracking
             /\ url.Parse (PhishingTemplateContext.URL c) = inl phishing
             /\ url.Path tracking = joined
             /\ no_double_slash (list_ascii_of_string (url.Path tracking))
             /\ url.Query tracking = url.Query phishing
             /\ url.Query tracking = fst (url.ParseQuery query))
       /\ ((forall u p, url.Opaque u <> EmptyString ->
              url.String (url.set_Path u p) = url.String u) ->
           url.Opaque parsed <> EmptyString ->
           PhishingTemplateContext.TrackingURL c
           = PhishingTemplateContext.URL c).
Proof.
  intros Hok.
  destruct (NewPhishingTemplateContext_outcome ctx r rid w)
    as [err Hfrom | f' out err w' Hfrom Hexec | f' templateURL err w' Hfrom Hexec Hparse
        | f' templateURL parsed w' Hfrom Hexec Hparse];
    cbn [fst snd] in *; try discriminate.
  exists templateURL, parsed. rewrite Hexec. cbn [fst].
  destruct (Join_track (url.Path parsed)) as (Hnds & Hempty & Hrooted & _).
  split; [reflexivity|]. split; [exact Hparse|].
  cbn [PhishingTemplateContext.TrackingURL PhishingTemplateContext.URL].
  unfold tracking_url, phishing_url.
  split; [reflexivity|]. split; [reflexivity|].
  split; [exact Hnds|]. split; [exact Hempty|]. split; [exact Hrooted|].
  split.
  { intros rest Hpath Hclean Hne. rewrite (Hrooted rest Hpath), Hclean.
    rewrite bool_decide_eq_false_2 by exact Hne. reflexivity. }
  split.
  - intros (tracking & Ht & Htpath & Htquery) (phishing & Hp & _ & Hpquery).
    exists tracking, phishing.
    cbn [url.set_RawQuery url.set_Path url.Path url.RawQuery] in Htpath, Htquery, Hpquery.
    split; [exact Ht|]. split; [exact Hp|]. split; [exact Htpath|].
    split; [rewrite Htpath; exact Hnds|].
    unfold url.Query. rewrite Htquery, Hpquery. split; reflexivity.
  - intros Hprint Hopaque.
    rewrite <- (Hprint (url.set_RawQuery parsed
                          (url.Encode (recipient_query parsed rid)))
                       (path.Join [url.Path parsed; "/track"]))
      by exact Hopaque.
    reflexivity.
Qed.

End BuilderClaims.

(** ** Validation and the clock *)





Section Validation.
Context {MP : mail.Parser} {UP : url.Package} {TE : template.Engine}.






(** C10. Suppose the libraries accept the validator's fixed inputs (the
    address foo@bar.com, the base URL as a template and as a URL) and
    execute the empty template body without error on any data. Then
    [ValidateTemplate] of the empty body returns nil and reads no clock;
    and [Template.Validate] of a template whose HTML body is empty, once
    past the header profile check and the switch, is the validation of its
    Text body followed by that of its attachments, and the other way round
    when the Text body is empty: the empty member never makes it fail. *)
Theorem ValidateTemplate_empty
    {AM : AttachmentModel}
    (f : mail.address) (tmplURL tmplEmpty : template.Template)
    (templateURL : string) (parsed : url.URL) :
  mail.ParseAddress "foo@bar.com" = inl f ->
  template.Parse ["hora"] "http://example.com" = inl tmplURL ->
  template.Execute tmplURL
    (BaseRecipient.reflect (BaseRecipient.mk "foo@bar.com" "Foo" "Bar" "Test"))
    = template.Done templateURL None ->
  url.Parse templateURL = inl parsed ->
  template.Parse ["hora"] EmptyString = inl tmplEmpty ->
  (forall data, exists buff,
     template.Execute tmplEmpty data = template.Done buff None) ->
  (forall w, ValidateTemplate EmptyString w = (None, w))
  /\ (forall (t : Template.t) (w : World),
        (Template.HeaderProfile t = EmptyString
         \/ is_Some (PredefinedHeaderProfiles !! Template.HeaderProfile t)) ->
        Template.validate_switch t = None ->
        (Template.HTML t = EmptyString ->
         Template.Validate t w
         = (let* err := ValidateTemplate (Template.Text t) in
            match err with
            | Some err => ret (Some err)
            | None => Template.validate_attachments (Template.Attachments t)
            end) w)
        /\ (Template.Text t = EmptyString ->
            Template.Validate t w
            = (let* err := ValidateTemplate (Template.HTML t) in
               match err with
               | Some err => ret (Some err)
               | None => Template.validate_attachments (Template.Attachments t)
               end) w)).
Proof.
  intros Hfrom HparseURL HexecURL Hurl HparseEmpty HexecEmpty.
  assert (Hempty : forall w, ValidateTemplate EmptyString w = (None, w)).
  { intros w. unfold ValidateTemplate, NewPhishingTemplateContext, bind.
    cbn [getFromAddress getBaseURL ValidationContext_TemplateContext
         ValidationContext.FromAddress ValidationContext.BaseURL
         Result.BaseRecipient Result.RId].
    rewrite Hfrom. unfold ExecuteTemplate at 1. cbn [fmap list_fmap fst].
    rewrite HparseURL, HexecURL. cbn [template.run bind ret fst snd].
    rewrite Hurl. cbn [ret fst snd].
    unfold ExecuteTemplate. cbn [fmap list_fmap fst]. rewrite HparseEmpty.
    destruct (HexecEmpty (PhishingTemplateContext.reflect
                (PhishingTemplateContext.mk
                   (if bool_decide (mail.Name f = EmptyString)
                    then mail.Address f else mail.Name f)
                   (url.String (phishing_url parsed "validate123"))
                   ("<img alt='' style='display: none' src='"
                    +:+ url.String (tracking_url parsed "validate123") +:+ "'/>")
                   (url.String (tracking_url parsed "validate123"))
                   "validate123"
                   (url.String (base_url parsed))
                   (BaseRecipient.mk "foo@bar.com" "Foo" "Bar" "Test"))))
      as [buff Hbuff].
    unfold phishing_url, tracking_url, base_url, recipient_query in Hbuff.
    unfold bind. rewrite Hbuff. reflexivity. }
  split; [exact Hempty|].
  intros t w Hprofile Hswitch.
  assert (Hgate :
    negb (bool_decide (Template.HeaderProfile t = EmptyString))
    && negb (bool_decide
               (is_Some (PredefinedHeaderProfiles !! Template.HeaderProfile t)))
    = false).
  { destruct Hprofile as [Hp|Hp].
    - rewrite (bool_decide_eq_true_2 _ Hp). reflexivity.
    - rewrite (bool_decide_eq_true_2 _ Hp). apply andb_false_r. }
  unfold Template.Validate. rewrite Hgate, Hswitch.
  split; intros Hmember; rewrite Hmember.
  - unfold bind at 1. rewrite Hempty. reflexivity.
  - unfold bind. destruct (ValidateTemplate (Template.HTML t) w) as [[err|] w'];
      [reflexivity|].
    rewrite Hempty. reflexivity.
Qed.

End Validation.

(** ** Runs on the reference libraries *)

(** C1 at a name that was retired from the registry. *)
Lemma GetHeadersForProfile_unknown_witness :
  let '(headers, boundary, _) :=
    fst (GetHeadersForProfile (R := Ref.rand_source) "thunderbird"
           (Ref.world_at 1)) in
  let '(headers', boundary', _) :=
    fst (GetHeadersForProfile (R := Ref.rand_source) "default"
           (Ref.world_at 2)) in
  delete "Content-Type" headers = delete "Content-Type" headers'.
Proof.
  pose proof (GetHeadersForProfile_unknown_is_default (R := Ref.rand_source)
                "thunderbird" (Ref.world_at 1) (Ref.world_at 2) eq_refl) as H.
  destruct (fst (GetHeadersForProfile "thunderbird" (Ref.world_at 1)))
    as [[headers boundary] err].
  destruct (fst (GetHeadersForProfile "default" (Ref.world_at 2)))
    as [[headers' boundary'] err'].
  exact (proj1 H).
Defined.

(** C7 at a template that names a retired profile. *)
Lemma Validate_rejects_unknown_profile_witness :
  Template.Validate
    (MP := Ref.mail_parser) (UP := Ref.url_package)
    (TE := Ref.template_engine) (AM := Ref.no_attachments)
    (Template.mk Ref.no_attachments 1 1 "Quarterly review" EmptyString
                 "Subject" "Hello" EmptyString (time.mkTime 0 0) []
                 "thunderbird")
    (Ref.world_at noon)
  = (Some ErrInvalidHeaderProfile, Ref.world_at noon).
Proof.
  refine (proj1 (Validate_rejects_unknown_profile
                   (R := Ref.rand_source) (MP := Ref.mail_parser)
                   (UP := Ref.url_package) (TE := Ref.template_engine)
                   (AM := Ref.no_attachments)
                   (Template.mk Ref.no_attachments 1 1 "Quarterly review"
                      EmptyString "Subject" "Hello" EmptyString
                      (time.mkTime 0 0) [] "thunderbird")
                   (Ref.world_at noon) (Ref.world_at noon) _ _)).
  - discriminate.
  - vm_compute. reflexivity.
Defined.

(** C8 at a From address that does not parse. *)
Lemma NewPhishingTemplateContext_error_zero_witness :
  fst (build "not an address" "http://example.com" "validate123")
  = PhishingTemplateContext.zero.
Proof.
  refine (proj1 (NewPhishingTemplateContext_error_zero
                   (MP := Ref.mail_parser) (UP := Ref.url_package)
                   (TE := Ref.template_engine)
                   (ValidationContext.mk "not an address" "http://example.com")
                   recipient "validate123" (Ref.world_at noon) _)).
  vm_compute. discriminate.
Defined.

(** C4 at an address with a display name. *)
Lemma NewPhishingTemplateContext_From_witness :
  PhishingTemplateContext.From
    (fst (build "Foo Bar <foo@bar.com>" "http://example.com" "validate123"))
  = "Foo Bar".
Proof.
  refine (proj1 (NewPhishingTemplateContext_From
                   (MP := Ref.mail_parser) (UP := Ref.url_package)
                   (TE := Ref.template_engine)
                   (ValidationContext.mk "Foo Bar <foo@bar.com>"
                                         "http://example.com")
                   recipient "validate123" (Ref.world_at noon)
                   (mail.mkAddress "Foo Bar" "foo@bar.com") _ _) _).
  - vm_compute. reflexivity.
  - vm_compute. reflexivity.
  - discriminate.
Defined.

(** C6 at a rendered URL that already carries the recipient key. *)
Lemma NewPhishingTemplateContext_URL_witness :
  exists templateURL parsed,
    templateURL = "http://example.com/login?rid=old&next=1"
    /\ Ref.Parse templateURL = inl parsed
    /\ PhishingTemplateContext.URL
         (fst (build "foo@bar.com" "http://example.com/login?rid=old&next=1"
                     "validate123"))
       = "http://example.com/login?next=1&rid=validate123"
    /\ url.Query (UP := Ref.url_package) parsed !! "rid" = Some ["old"]
    /\ recipient_query (UP := Ref.url_package) parsed "validate123" !! "rid"
       = Some ["validate123"]
    /\ recipient_query (UP := Ref.url_package) parsed "validate123" !! "next"
       = Some ["1"].
Proof.
  destruct (NewPhishingTemplateContext_URL
              (MP := Ref.mail_parser) (UP := Ref.url_package)
              (TE := Ref.template_engine)
              (ValidationContext.mk "foo@bar.com"
                 "http://example.com/login?rid=old&next=1")
              recipient "validate123" (Ref.world_at noon))
    as (templateURL & parsed & Htext & Hparse & Hurl & Hrid & _ & Hother).
  { vm_compute. reflexivity. }
  exists templateURL, parsed.
  assert (Ht : templateURL = "http://example.com/login?rid=old&next=1").
  { rewrite <- Htext. vm_compute. reflexivity. }
  split; [exact Ht|]. split; [exact Hparse|].
  split; [vm_compute; reflexivity|].
  subst templateURL.
  assert (parsed = url.mkURL "http" EmptyString None "example.com" "/login"
                     EmptyString false false "rid=old&next=1" EmptyString
                     EmptyString) as ->.
  { assert (Hp : Ref.Parse "http://example.com/login?rid=old&next=1" = inl parsed)
      by exact Hparse.
    vm_compute in Hp. injection Hp as <-. reflexivity. }
  split; [vm_compute; reflexivity|].
  split; [exact Hrid|].
  rewrite Hother by discriminate. vm_compute. reflexivity.
Defined.

(** C2, the counterexample. The rendered URL has the path /a/../b. The
    TrackingURL has the path /b/track: that is neither the path of the
    BaseURL field (which is empty) followed by /track, nor the rendered
    path followed by /track. *)
Lemma TrackingURL_path_counterexample :
  let c := fst (build "foo@bar.com" "http://example.com/a/../b" "validate123") in
  snd (build "foo@bar.com" "http://example.com/a/../b" "validate123") = None
  /\ PhishingTemplateContext.BaseURL c = "http://example.com"
  /\ PhishingTemplateContext.TrackingURL c
     = "http://example.com/b/track?rid=validate123"
  /\ exists tracking base,
       Ref.Parse (PhishingTemplateContext.TrackingURL c) = inl tracking
       /\ Ref.Parse (PhishingTemplateContext.BaseURL c) = inl base
       /\ url.Path tracking = "/b/track"
       /\ url.Path base = EmptyString
       /\ url.Path tracking <> url.Path base +:+ "/track"
       /\ url.Path tracking <> "/a/../b" +:+ "/track".
Proof.
  cbv zeta. split; [vm_compute; reflexivity|].
  split; [vm_compute; reflexivity|].
  split; [vm_compute; reflexivity|].
  eexists _, _.
  split; [vm_compute; reflexivity|].
  split; [vm_compute; reflexivity|].
  split; [reflexivity|]. split; [reflexivity|].
  split; discriminate.
Qed.

(** The reference model of [URL.String] prints an opaque URL without
    looking at its path. *)
Lemma Ref_String_opaque (u : url.URL) (p : string) :
  url.Opaque u <> EmptyString ->
  Ref.URL_String (url.set_Path u p) = Ref.URL_String u.
Proof.
  intros Hopaque. unfold Ref.URL_String.
  cbn [url.set_Path url.Scheme url.Opaque url.User url.Host url.Path
       url.RawPath url.OmitHost url.ForceQuery url.RawQuery url.Fragment
       url.RawFragment].
  rewrite (bool_decide_eq_false_2 _ Hopaque). cbn [negb].
  unfold Ref.EscapedFragment.
  cbn [url.set_Path url.Fragment url.RawFragment]. reflexivity.
Qed.

(** C2 as amended, at a rendered URL with a clean path, which the library
    reads back, and at an opaque one. *)
Lemma NewPhishingTemplateContext_TrackingURL_witness :
  (exists tracking,
     Ref.Parse (PhishingTemplateContext.TrackingURL
                  (fst (build "foo@bar.com" "http://example.com/login"
                          "validate123")))
     = inl tracking
     /\ url.Path tracking = "/login/track"
     /\ PhishingTemplateContext.TrackingURL
          (fst (build "foo@bar.com" "http://example.com/login" "validate123"))
        = "http://example.com/login/track?rid=validate123")
  /\ PhishingTemplateContext.TrackingURL
       (fst (build "foo@bar.com" "http:example.com" "validate123"))
     = PhishingTemplateContext.URL
         (fst (build "foo@bar.com" "http:example.com" "validate123")).
Proof.
  split.
  - destruct (NewPhishingTemplateContext_TrackingURL
                (MP := Ref.mail_parser) (UP := Ref.url_package)
                (TE := Ref.template_engine)
                (ValidationContext.mk "foo@bar.com" "http://example.com/login")
                recipient "validate123" (Ref.world_at noon))
      as (templateURL & parsed & Htext & Hparse & _ & _ & _ & _ & _ & Hclean
          & Hback & _).
    { vm_compute. reflexivity. }
    assert (Ht : templateURL = "http://example.com/login")
      by (rewrite <- Htext; vm_compute; reflexivity).
    subst templateURL.
    assert (parsed = url.mkURL "http" EmptyString None "example.com" "/login"
                       EmptyString false false EmptyString EmptyString
                       EmptyString) as ->.
    { assert (Hp : Ref.Parse "http://example.com/login" = inl parsed)
        by exact Hparse.
      vm_compute in Hp. injection Hp as <-. reflexivity. }
    destruct Hback as (tracking & phishing & Hread & _ & Hpath & _).
    + eexists. split; [vm_compute; reflexivity|]. split; reflexivity.
    + eexists. split; [vm_compute; reflexivity|]. split; reflexivity.
    + exists tracking. split; [exact Hread|].
      split; [|vm_compute; reflexivity].
      rewrite Hpath.
      apply (Hclean "login"); [reflexivity | vm_compute; reflexivity | discriminate].
  - destruct (NewPhishingTemplateContext_TrackingURL
                (MP := Ref.mail_parser) (UP := Ref.url_package)
                (TE := Ref.template_engine)
                (ValidationContext.mk "foo@bar.com" "http:example.com")
                recipient "validate123" (Ref.world_at noon))
      as (templateURL & parsed & Htext & Hparse & _ & _ & _ & _ & _ & _
          & _ & Hopaque).
    { vm_compute. reflexivity. }
    assert (Ht : templateURL = "http:example.com")
      by (rewrite <- Htext; vm_compute; reflexivity).
    subst templateURL.
    apply Hopaque; [exact Ref_String_opaque|].
    assert (Hp : Ref.Parse "http:example.com" = inl parsed) by exact Hparse.
    vm_compute in Hp. injection Hp as <-. discriminate.
Defined.

(** C5 at a base URL with a fragment: the path and the query are gone
    from the BaseURL field, the fragment is still there. *)
Theorem BaseURL_keeps_fragment :
  build "foo@bar.com" "http://example.com/login?next=1#top" "validate123"
  = (PhishingTemplateContext.mk
       "foo@bar.com"
       "http://example.com/login?next=1&rid=validate123#top"
       "<img alt='' style='display: none' src='http://example.com/login/track?next=1&rid=validate123#top'/>"
       "http://example.com/login/track?next=1&rid=validate123#top"
       "validate123"
       "http://example.com#top"
       recipient,
     None).
Proof. vm_compute. reflexivity. Qed.



(** C10 on the reference libraries. *)
Lemma ValidateTemplate_empty_witness :
  ValidateTemplate (MP := Ref.mail_parser) (UP := Ref.url_package)
    (TE := Ref.template_engine) EmptyString (Ref.world_at noon)
  = (None, Ref.world_at noon).
Proof.
  refine (proj1 (ValidateTemplate_empty
                   (MP := Ref.mail_parser) (UP := Ref.url_package)
                   (TE := Ref.template_engine) (AM := Ref.no_attachments)
                   (mail.mkAddress EmptyString "foo@bar.com")
                   [Ref.NText "http://example.com"] []
                   "http://example.com"
                   (url.mkURL "http" EmptyString None "example.com" EmptyString
                      EmptyString false false EmptyString EmptyString
                      EmptyString)
                   _ _ _ _ _ _) (Ref.world_at noon)).
  - vm_compute. reflexivity.
  - vm_compute. reflexivity.
  - vm_compute. reflexivity.
  - vm_compute. reflexivity.
  - vm_compute. reflexivity.
  - intros data. exists EmptyString. reflexivity.
Defined.

(** C3 on the reference generator, for the Apple Mail profile. *)
Lemma GetHeadersForProfile_content_type_witness :
  let '(headers, boundary, _) :=
    fst (GetHeadersForProfile (R := Ref.rand_source) "apple_mail"
           (Ref.world_at noon)) in
  exists suffix,
    boundary = "Apple-Mail=_" +:+ suffix /\ String.length suffix = 30.
Proof.
  pose proof (GetHeadersForProfile_content_type (R := Ref.rand_source)
                "apple_mail" (Ref.world_at noon)) as H.
  destruct (fst (GetHeadersForProfile "apple_mail" (Ref.world_at noon)))
    as [[headers boundary] err].
  destruct H as (_ & suffix & Hb & Hlen & _).
  exists suffix. split; [exact Hb | exact Hlen].
Defined.

(** * Further properties of the two files *)

(** ** GetHeadersForProfile and generateBoundary *)

(** No profile of the registry has a Content-Type among its static
    headers. *)
Lemma registry_no_content_type (profileName : string) (p : HeaderProfile.t) :
  PredefinedHeaderProfiles !! profileName = Some p ->
  HeaderProfile.Headers p !! "Content-Type" = None.
Proof.
  intros Hp. unfold PredefinedHeaderProfiles in Hp.
  apply elem_of_list_to_map_2 in Hp.
  repeat (apply elem_of_cons in Hp as [Hp|Hp];
          [injection Hp as _ ->; vm_compute; reflexivity|]).
  apply elem_of_nil in Hp. contradiction.
Qed.

(** X1. For a profile name of the registry, the mapping returned is the
    profile's static headers with one entry more, the Content-Type of the
    call: every static header is there with its value, nothing else is,
    and no static header is overwritten. *)
Theorem GetHeadersForProfile_registered {R : rand.Source}
    (profileName : string) (p : HeaderProfile.t) (w : World) :
  PredefinedHeaderProfiles !! profileName = Some p ->
  let '(headers, boundary, _) := fst (GetHeadersForProfile profileName w) in
  headers = <["Content-Type" := content_type boundary]> (HeaderProfile.Headers p)
  /\ HeaderProfile.Headers p !! "Content-Type" = None
  /\ (forall key, key <> "Content-Type" ->
        headers !! key = HeaderProfile.Headers p !! key)
  /\ size headers = S (size (HeaderProfile.Headers p)).
Proof.
  intros Hp. pose proof (registry_no_content_type profileName p Hp) as Hfresh.
  rewrite GetHeadersForProfile_unfold. unfold resolved_profile.
  rewrite (bool_decide_eq_true_2 (is_Some _)) by (rewrite Hp; eauto).
  rewrite Hp. cbv zeta. cbn [default].
  destruct (bool_decide (profileName = "apple_mail")); cbn [fst snd];
    (split; [reflexivity|]; split; [exact Hfresh|]; split;
     [intros key Hkey; apply lookup_insert_ne; congruence
     |apply map_size_insert_None; exact Hfresh]).
Qed.

(** X2. The boundary token depends on the clock through one reading only:
    the first of the call, or the second for the Apple Mail profile, whose
    first token is thrown away. Two calls whose readings show the same
    nanosecond return the same headers and the same token. Each call
    makes one reading of the clock, two for Apple Mail. *)
Theorem GetHeadersForProfile_same_instant {R : rand.Source}
    (profileName : string) (w1 w2 : World) :
  let k :=
    if bool_decide (resolved_profile profileName = "apple_mail") then 1 else 0 in
  time.UnixNano (clock w1 (reads w1 + k)) = time.UnixNano (clock w2 (reads w2 + k)) ->
  fst (GetHeadersForProfile profileName w1)
  = fst (GetHeadersForProfile profileName w2)
  /\ snd (GetHeadersForProfile profileName w1)
     = mkWorld (clock w1) (reads w1 + S k).
Proof.
  cbv zeta. rewrite !GetHeadersForProfile_unfold. cbv zeta.
  unfold generateBoundary, bind, ret, time_Now. cbn [fst snd clock reads].
  destruct (bool_decide (resolved_profile profileName = "apple_mail"));
    cbn [fst snd clock reads].
  - rewrite !Nat.add_1_r. intros ->. split; [reflexivity|]. f_equal. lia.
  - rewrite !Nat.add_0_r. intros ->. split; [reflexivity|]. f_equal. lia.
Qed.

(** ** ExecuteTemplate *)

Section ExecuteTemplateFacts.
Context {TE : template.Engine}.

(** X3. [ExecuteTemplate] never returns output together with an error:
    when the error is not nil the string is empty, whatever the engine
    had written to its buffer. A body that does not parse is reported
    with the parser's error wrapped, and without any function of the
    function map being called: the clock is not read. *)
Theorem ExecuteTemplate_error_no_output
    (text : string) (data : template.Value) (w : World) :
  (snd (fst (ExecuteTemplate text data w)) <> None ->
   fst (fst (ExecuteTemplate text data w)) = EmptyString)
  /\ (forall err, template.Parse ["hora"] text = inr err ->
        ExecuteTemplate text data w
        = (EmptyString,
           Some (fmt_Errorf_w ("error parsing template: " +:+ Error err) err),
           w)).
Proof.
  unfold ExecuteTemplate. cbn [fmap list_fmap fst].
  destruct (template.Parse ["hora"] text) as [tmpl|e].
  - split; [|discriminate]. unfold bind.
    destruct (template.run _ (template.Execute tmpl data) w)
      as [[buff [e|]] w']; cbn [fst snd ret]; [reflexivity | congruence].
  - split; [reflexivity|]. intros err [= ->]. reflexivity.
Qed.

End ExecuteTemplateFacts.

(** ** Template.Validate *)

Section ValidateFacts.
Context {MP : mail.Parser} {UP : url.Package} {TE : template.Engine}.
Context {AM : AttachmentModel}.

(** What the switch of [Validate] lets through. *)
Lemma validate_switch_None (t : Template.t) :
  Template.validate_switch t = None <->
  Template.Name t <> EmptyString
  /\ (Template.Text t <> EmptyString \/ Template.HTML t <> EmptyString)
  /\ (Template.EnvelopeSender t = EmptyString
      \/ exists a, mail.ParseAddress (Template.EnvelopeSender t) = inl a).
Proof.
  unfold Template.validate_switch.
  destruct (bool_decide_reflect (Template.Name t = EmptyString)) as [Hn|Hn].
  { split; [discriminate | tauto]. }
  destruct (bool_decide_reflect (Template.Text t = EmptyString)) as [Ht|Ht];
    destruct (bool_decide_reflect (Template.HTML t = EmptyString)) as [Hh|Hh];
    cbn [andb].
  1: { split; [discriminate | tauto]. }
  all: destruct (bool_decide_reflect (Template.EnvelopeSender t = EmptyString))
         as [He|He]; cbn [negb];
       [ split; [intros _; repeat split; auto | reflexivity]
       | destruct (mail.ParseAddress (Template.EnvelopeSender t)) as [a|err];
         [ split; [intros _; repeat split; eauto | reflexivity]
         | split; [discriminate
                  | intros (_ & _ & [He' | [a Ha]]); [tauto | discriminate]] ] ].
Qed.

(** X4. [Template.Validate] returns nil exactly when every check passes:
    the header profile is empty or of the registry, the name is not
    empty, one of the two bodies is not empty, the envelope sender is
    empty or parses, the HTML body validates, then the Text body, then
    every attachment in order. *)
Theorem Validate_accepts_iff (t : Template.t) (w : World) :
  let w1 := snd (ValidateTemplate (Template.HTML t) w) in
  let w2 := snd (ValidateTemplate (Template.Text t) w1) in
  fst (Template.Validate t w) = None <->
  (Template.HeaderProfile t = EmptyString
   \/ is_Some (PredefinedHeaderProfiles !! Template.HeaderProfile t))
  /\ Template.Name t <> EmptyString
  /\ (Template.Text t <> EmptyString \/ Template.HTML t <> EmptyString)
  /\ (Template.EnvelopeSender t = EmptyString
      \/ exists a, mail.ParseAddress (Template.EnvelopeSender t) = inl a)
  /\ fst (ValidateTemplate (Template.HTML t) w) = None
  /\ fst (ValidateTemplate (Template.Text t) w1) = None
  /\ fst (Template.validate_attachments (Template.Attachments t) w2) = None.
Proof.
  cbv zeta. pose proof (validate_switch_None t) as Hsw.
  unfold Template.Validate.
  destruct (bool_decide_reflect (Template.HeaderProfile t = EmptyString))
    as [Hp|Hp]; cbn [negb andb].
  2: destruct (bool_decide_reflect
                 (is_Some (PredefinedHeaderProfiles !! Template.HeaderProfile t)))
       as [Hr|Hr]; cbn [negb].
  3: { cbn [ret fst]. split; [discriminate | tauto]. }
  all: destruct (Template.validate_switch t) as [e|];
       [ cbn [ret fst]; split;
         [ discriminate
         | intros (_ & Hn & Hb & He & _);
           assert (Some e = None) by (apply Hsw; auto); discriminate ] | ];
       destruct (proj1 Hsw eq_refl) as (Hn & Hb & He);
       unfold bind;
       destruct (ValidateTemplate (Template.HTML t) w) as [[e1|] w1];
       cbn [fst snd ret];
       [ split; [discriminate | intros (_ & _ & _ & _ & [=] & _)] | ];
       destruct (ValidateTemplate (Template.Text t) w1) as [[e2|] w2];
       cbn [fst snd ret];
       [ split; [discriminate | intros (_ & _ & _ & _ & _ & [=] & _)] | ];
       split; [intros H; repeat split; auto | intros (_ & _ & _ & _ & _ & _ & H); exact H].
Qed.

(** X5. The input checks of [Validate] and their order, for a template
    whose header profile passes. An empty name is reported first, whatever
    else is wrong; with a name, two empty bodies are reported next; with a
    name and a body, an envelope sender that does not parse is reported
    with the parser's own error. None of the three reads the clock: no
    template body is validated. *)
Theorem Validate_input_errors (t : Template.t) (w : World) :
  (Template.HeaderProfile t = EmptyString
   \/ is_Some (PredefinedHeaderProfiles !! Template.HeaderProfile t)) ->
  (Template.Name t = EmptyString ->
   Template.Validate t w = (Some ErrTemplateNameNotSpecified, w))
  /\ (Template.Name t <> EmptyString ->
      Template.Text t = EmptyString -> Template.HTML t = EmptyString ->
      Template.Validate t w = (Some ErrTemplateMissingParameter, w))
  /\ (forall err,
        Template.Name t <> EmptyString ->
        (Template.Text t <> EmptyString \/ Template.HTML t <> EmptyString) ->
        Template.EnvelopeSender t <> EmptyString ->
        mail.ParseAddress (Template.EnvelopeSender t) = inr err ->
        Template.Validate t w = (Some err, w)).
Proof.
  intros Hprofile.
  assert (Hgate :
    negb (bool_decide (Template.HeaderProfile t = EmptyString))
    && negb (bool_decide
               (is_Some (PredefinedHeaderProfiles !! Template.HeaderProfile t)))
    = false).
  { destruct Hprofile as [Hp|Hp].
    - rewrite (bool_decide_eq_true_2 _ Hp). reflexivity.
    - rewrite (bool_decide_eq_true_2 _ Hp). apply andb_false_r. }
  unfold Template.Validate, Template.validate_switch. rewrite Hgate.
  split; [|split].
  - intros Hn. rewrite (bool_decide_eq_true_2 _ Hn). reflexivity.
  - intros Hn Ht Hh. rewrite (bool_decide_eq_false_2 _ Hn).
    rewrite (bool_decide_eq_true_2 _ Ht), (bool_decide_eq_true_2 _ Hh).
    reflexivity.
  - intros err Hn Hbody He Hparse. rewrite (bool_decide_eq_false_2 _ Hn).
    assert (bool_decide (Template.Text t = EmptyString)
            && bool_decide (Template.HTML t = EmptyString) = false) as ->.
    { destruct Hbody as [Hb|Hb]; rewrite (bool_decide_eq_false_2 _ Hb);
        [reflexivity | apply andb_false_r]. }
    rewrite (bool_decide_eq_false_2 _ He). cbn [negb]. rewrite Hparse.
    reflexivity.
Qed.

(** X6. The HTML body is validated before the Text body: when the input
    checks pass and the HTML body is refused, [Validate] returns the error
    of the HTML body and stops there, whatever the Text body and the
    attachments are. *)
Theorem Validate_html_first (t : Template.t) (w : World) (err : error) :
  (Template.HeaderProfile t = EmptyString
   \/ is_Some (PredefinedHeaderProfiles !! Template.HeaderProfile t)) ->
  Template.validate_switch t = None ->
  fst (ValidateTemplate (Template.HTML t) w) = Some err ->
  Template.Validate t w = (Some err, snd (ValidateTemplate (Template.HTML t) w)).
Proof.
  intros Hprofile Hswitch Hhtml.
  assert (Hgate :
    negb (bool_decide (Template.HeaderProfile t = EmptyString))
    && negb (bool_decide
               (is_Some (PredefinedHeaderProfiles !! Template.HeaderProfile t)))
    = false).
  { destruct Hprofile as [Hp|Hp].
    - rewrite (bool_decide_eq_true_2 _ Hp). reflexivity.
    - rewrite (bool_decide_eq_true_2 _ Hp). apply andb_false_r. }
  unfold Template.Validate. rewrite Hgate, Hswitch. unfold bind.
  destruct (ValidateTemplate (Template.HTML t) w) as [[e|] w'];
    cbn [fst snd] in *; [|discriminate].
  injection Hhtml as ->. reflexivity.
Qed.

End ValidateFacts.

(** ** ValidateTemplate *)

Section ValidateTemplateFacts.
Context {MP : mail.Parser} {UP : url.Package} {TE : template.Engine}.

(** X7. An error of [ValidateTemplate] tells the stage that failed. It is
    one of three: the error of building the validation context, wrapped
    once; the parser's error for the body, wrapped by [ExecuteTemplate]
    and then by the validator; or the engine's error of executing the
    body against the built context, wrapped the same way. The body is
    looked at only when the context was built. *)
Theorem ValidateTemplate_error_stage (text : string) (w : World) (err : error) :
  fst (ValidateTemplate text w) = Some err ->
  let built :=
    NewPhishingTemplateContext
      (ValidationContext.mk "foo@bar.com" "http://example.com")
      recipient "validate123" w in
  (exists inner,
     snd (fst built) = Some inner
     /\ err = fmt_Errorf_w
                ("error creating validation context: " +:+ Error inner) inner)
  \/ (snd (fst built) = None
      /\ exists e,
           template.Parse ["hora"] text = inr e
           /\ err = fmt_Errorf_w
                      ("template validation failed: "
                       +:+ ("error parsing template: " +:+ Error e))
                      (fmt_Errorf_w ("error parsing template: " +:+ Error e) e))
  \/ (snd (fst built) = None
      /\ exists tmpl e,
           template.Parse ["hora"] text = inl tmpl
           /\ snd (fst (template.run [("hora", currentTimeHHMM)]
                          (template.Execute tmpl
                             (PhishingTemplateContext.reflect (fst (fst built))))
                          (snd built))) = Some e
           /\ err = fmt_Errorf_w
                      ("template validation failed: "
                       +:+ ("error executing template: " +:+ Error e))
                      (fmt_Errorf_w ("error executing template: " +:+ Error e) e)).
Proof.
  cbv zeta. unfold ValidateTemplate, bind.
  cbn [Result.BaseRecipient Result.RId]. fold recipient.
  destruct (NewPhishingTemplateContext _ recipient "validate123" w)
    as [[ptx [inner|]] w']; cbn [fst snd ret].
  - intros [= <-]. left. eauto.
  - unfold ExecuteTemplate. cbn [fmap list_fmap fst].
    destruct (template.Parse ["hora"] text) as [tmpl|e]; cbn [fst snd ret].
    + unfold bind.
      destruct (template.run _ (template.Execute tmpl _) w')
        as [[buff [e|]] w''] eqn:Hrun; cbn [fst snd ret]; [|discriminate].
      intros [= <-]. right. right. split; [reflexivity|].
      exists tmpl, e. rewrite Hrun. repeat split.
    + intros [= <-]. right. left. split; [reflexivity|].
      exists e. split; reflexivity.
Qed.

(** X8. When the libraries accept the validator's fixed inputs (the
    address, the base URL as a template and as a URL), building the
    validation context cannot fail and reads no clock, so validating a
    body is executing it against one fixed context: the display name or
    address of foo@bar.com, the three URLs made from the parsed base URL
    and the recipient id validate123, and the placeholder recipient. The
    result is nil when that execution succeeds, and its error wrapped once
    more when it does not. *)
Theorem ValidateTemplate_fixed_context
    (f : mail.address) (tmplURL : template.Template)
    (templateURL : string) (parsed : url.URL) :
  mail.ParseAddress "foo@bar.com" = inl f ->
  template.Parse ["hora"] "http://example.com" = inl tmplURL ->
  template.Execute tmplURL (BaseRecipient.reflect recipient)
    = template.Done templateURL None ->
  url.Parse templateURL = inl parsed ->
  forall (text : string) (w : World),
    NewPhishingTemplateContext
      (ValidationContext.mk "foo@bar.com" "http://example.com")
      recipient "validate123" w
    = (validation_context f parsed, None, w)
    /\ ValidateTemplate text w
       = (match snd (fst (ExecuteTemplate text
                            (PhishingTemplateContext.reflect
                               (validation_context f parsed)) w)) with
          | Some err =>
              Some (fmt_Errorf_w
                      ("template validation failed: " +:+ Error err) err)
          | None => None
          end,
          snd (ExecuteTemplate text
                 (PhishingTemplateContext.reflect (validation_context f parsed))
                 w)).
Proof.
  intros Hfrom HparseURL HexecURL Hurl text w.
  assert (Hbuilt :
    NewPhishingTemplateContext
      (ValidationContext.mk "foo@bar.com" "http://example.com")
      recipient "validate123" w
    = (validation_context f parsed, None, w)).
  { unfold NewPhishingTemplateContext, bind.
    cbn [getFromAddress getBaseURL ValidationContext_TemplateContext
         ValidationContext.FromAddress ValidationContext.BaseURL].
    rewrite Hfrom. unfold ExecuteTemplate. cbn [fmap list_fmap fst].
    rewrite HparseURL, HexecURL. cbn [template.run bind ret fst snd].
    rewrite Hurl. reflexivity. }
  split; [exact Hbuilt|].
  unfold ValidateTemplate, bind.
  cbn [Result.BaseRecipient Result.RId]. fold recipient.
  rewrite Hbuilt. cbn [fst snd].
  destruct (ExecuteTemplate text _ w) as [[out [err|]] w']; reflexivity.
Qed.

End ValidateTemplateFacts.

(** ** The recipient key *)

Section RecipientKey.
Context {MP : mail.Parser} {UP : url.Package} {TE : template.Engine}.
Context {T : Type} {TC : TemplateContext T}.

(** X9. What the rendered base URL carries under the recipient key leaves
    no trace in the context that is built. Take two calls of
    [NewPhishingTemplateContext] for the same recipient id that both build
    a context, whose rendered base URLs parse to URLs that differ in the
    raw query only and whose query parameters agree on every key but the
    recipient key: they return the same URL, the same TrackingURL and the
    same Tracker. *)
Theorem NewPhishingTemplateContext_forgets_recipient
    (ctx1 ctx2 : T) (r1 r2 : BaseRecipient.t) (rid : string) (w1 w2 : World)
    (u1 u2 : url.URL) :
  snd (fst (NewPhishingTemplateContext ctx1 r1 rid w1)) = None ->
  snd (fst (NewPhishingTemplateContext ctx2 r2 rid w2)) = None ->
  url.Parse (fst (fst (ExecuteTemplate (getBaseURL ctx1)
                         (BaseRecipient.reflect r1) w1))) = inl u1 ->
  url.Parse (fst (fst (ExecuteTemplate (getBaseURL ctx2)
                         (BaseRecipient.reflect r2) w2))) = inl u2 ->
  url.set_RawQuery u1 EmptyString = url.set_RawQuery u2 EmptyString ->
  (forall key, key <> RecipientParameter ->
     url.Query u1 !! key = url.Query u2 !! key) ->
  let c1 := fst (fst (NewPhishingTemplateContext ctx1 r1 rid w1)) in
  let c2 := fst (fst (NewPhishingTemplateContext ctx2 r2 rid w2)) in
  PhishingTemplateContext.URL c1 = PhishingTemplateContext.URL c2
  /\ PhishingTemplateContext.TrackingURL c1 = PhishingTemplateContext.TrackingURL c2
  /\ PhishingTemplateContext.Tracker c1 = PhishingTemplateContext.Tracker c2.
Proof.
  intros Hok1 Hok2 Hu1 Hu2 Hsame Hkeys.
  assert (Hq : recipient_query u1 rid = recipient_query u2 rid).
  { apply map_eq. intros key. unfold recipient_query, url.Values_Set.
    destruct (decide (RecipientParameter = key)) as [<-|Hne].
    - rewrite !lookup_insert_eq. reflexivity.
    - rewrite !lookup_insert_ne by exact Hne. apply Hkeys. congruence. }
  assert (Hrest : forall q, url.set_RawQuery u1 q = url.set_RawQuery u2 q).
  { intros q.
    change (url.set_RawQuery (url.set_RawQuery u1 EmptyString) q
            = url.set_RawQuery (url.set_RawQuery u2 EmptyString) q).
    rewrite Hsame. reflexivity. }
  assert (Hpath : url.Path u1 = url.Path u2).
  { change (url.Path (url.set_RawQuery u1 EmptyString)
            = url.Path (url.set_RawQuery u2 EmptyString)).
    rewrite Hsame. reflexivity. }
  assert (Hphish : phishing_url u1 rid = phishing_url u2 rid).
  { unfold phishing_url. rewrite Hq. apply Hrest. }
  assert (Htrack : tracking_url u1 rid = tracking_url u2 rid).
  { unfold tracking_url. rewrite Hq, Hpath.
    change (url.set_Path (url.set_RawQuery u1
                            (url.Encode (recipient_query u2 rid)))
              (path.Join [url.Path u2; "/track"])
            = url.set_Path (url.set_RawQuery u2
                              (url.Encode (recipient_query u2 rid)))
                (path.Join [url.Path u2; "/track"])).
    rewrite Hrest. reflexivity. }
  destruct (NewPhishingTemplateContext_outcome ctx1 r1 rid w1)
    as [err Hfrom | f' out err w' Hfrom Hexec | f' templateURL err w' Hfrom Hexec Hparse
        | f1 templateURL1 parsed1 w1' Hfrom1 Hexec1 Hparse1];
    cbn [fst snd] in *; try discriminate.
  destruct (NewPhishingTemplateContext_outcome ctx2 r2 rid w2)
    as [err Hfrom | f' out err w' Hfrom Hexec | f' templateURL err w' Hfrom Hexec Hparse
        | f2 templateURL2 parsed2 w2' Hfrom2 Hexec2 Hparse2];
    cbn [fst snd] in *; try discriminate.
  rewrite Hexec1 in Hu1. rewrite Hexec2 in Hu2. cbn [fst] in Hu1, Hu2.
  assert (parsed1 = u1) as -> by congruence.
  assert (parsed2 = u2) as -> by congruence.
  cbn [PhishingTemplateContext.URL PhishingTemplateContext.TrackingURL
       PhishingTemplateContext.Tracker].
  rewrite Hphish, Htrack. repeat split.
Qed.

End RecipientKey.

(** ** The functions on the database *)

Section DatabaseFacts.
Context {MP : mail.Parser} {UP : url.Package} {TE : template.Engine}.
Context {AM : AttachmentModel} {DBI : gorm.Database}.

Lemma default_profile_not_empty (t : Template.t) :
  Template.HeaderProfile (default_profile t) <> EmptyString.
Proof.
  unfold default_profile.
  destruct (bool_decide_reflect (Template.HeaderProfile t = EmptyString));
    [discriminate | assumption].
Qed.

Lemma default_profile_idempotent (t : Template.t) :
  default_profile (default_profile t) = default_profile t.
Proof.
  unfold default_profile at 1.
  rewrite bool_decide_eq_false_2 by apply default_profile_not_empty.
  reflexivity.
Qed.

(** The loop that saves the attachments reads no clock, logs the error it
    returns and nothing else, and leaves the template's own fields
    alone. *)
Lemma save_attachments_spec (indices : list nat) (t : Template.t) (s : Store) :
  let '(t', err, s') := save_attachments indices t s in
  world s' = world s
  /\ logged s' = logged s ++ match err with Some e => [e] | None => [] end
  /\ Template.HeaderProfile t' = Template.HeaderProfile t
  /\ Template.Id t' = Template.Id t
  /\ length (Template.Attachments t') = length (Template.Attachments t).
Proof.
  revert t s; induction indices as [|i rest IH]; intros t s; cbn [save_attachments].
  - unfold st_ret. rewrite app_nil_r. auto.
  - destruct (Template.Attachments t !! i) as [a|].
    2: { unfold st_ret. rewrite app_nil_r. auto. }
    unfold st_bind, st_write.
    destruct (gorm.SaveAttachment (database s)
                (gorm.set_TemplateId a (Template.Id t))) as [[a' [e|]] db'];
      cbn [fst snd].
    + unfold log_Error, st_ret. cbn [world logged set_Attachments
        Template.HeaderProfile Template.Id Template.Attachments].
      rewrite length_insert. auto.
    + specialize (IH (set_Attachments t (<[i := a']> (Template.Attachments t)))
                     (mkStore db' (logged s) (world s))).
      destruct (save_attachments rest _ _) as [[t' err] s'].
      cbn [world logged set_Attachments Template.HeaderProfile Template.Id
           Template.Attachments] in IH.
      rewrite length_insert in IH. exact IH.
Qed.

(** X10. [PostTemplate] and [PutTemplate] validate before they touch the
    database: when [Validate] refuses the template (its empty header
    profile replaced by default), both return that error at once; the
    database is as it was and nothing is logged. *)
Theorem PostTemplate_PutTemplate_invalid
    (t : Template.t) (s : Store) (err : error) :
  fst (Template.Validate (default_profile t) (world s)) = Some err ->
  let s' :=
    mkStore (database s) (logged s)
            (snd (Template.Validate (default_profile t) (world s))) in
  PostTemplate t s = (default_profile t, Some err, s')
  /\ PutTemplate t s = (default_profile t, Some err, s').
Proof.
  intros Hinvalid. unfold PostTemplate, PutTemplate, st_bind, st_lift.
  destruct (Template.Validate (default_profile t) (world s)) as [invalid w'].
  cbn [fst snd] in *. subst invalid. split; reflexivity.
Qed.

(** X11. At save time an empty header profile means default, and an
    unknown one is refused: [PostTemplate] and [PutTemplate] treat a
    template with the empty profile exactly as the same template with the
    profile default; a template whose profile is a non-empty name that is
    no key of the registry comes back unchanged with
    [ErrInvalidHeaderProfile], the store untouched and no clock read. *)
Theorem PostTemplate_PutTemplate_profile (t : Template.t) (s : Store) :
  (Template.HeaderProfile t = EmptyString ->
   PostTemplate t s = PostTemplate (set_HeaderProfile t "default") s
   /\ PutTemplate t s = PutTemplate (set_HeaderProfile t "default") s)
  /\ (Template.HeaderProfile t <> EmptyString ->
      PredefinedHeaderProfiles !! Template.HeaderProfile t = None ->
      PostTemplate t s = (t, Some ErrInvalidHeaderProfile, s)
      /\ PutTemplate t s = (t, Some ErrInvalidHeaderProfile, s)).
Proof.
  split.
  - intros Hempty. unfold PostTemplate, PutTemplate.
    assert (default_profile (set_HeaderProfile t "default") = default_profile t)
      as ->; [|split; reflexivity].
    unfold default_profile. rewrite (bool_decide_eq_true_2 _ Hempty).
    cbn [set_HeaderProfile Template.HeaderProfile].
    rewrite bool_decide_eq_false_2 by discriminate. reflexivity.
  - intros Hne Hunknown.
    assert (Hdef : default_profile t = t).
    { unfold default_profile. rewrite (bool_decide_eq_false_2 _ Hne).
      reflexivity. }
    assert (Hval : Template.Validate t (world s)
                   = (Some ErrInvalidHeaderProfile, world s)).
    { unfold Template.Validate. rewrite Hunknown.
      rewrite (bool_decide_eq_false_2 _ Hne).
      rewrite (bool_decide_eq_false_2 (is_Some None))
        by (intros [? ?]; discriminate).
      reflexivity. }
    unfold PostTemplate, PutTemplate, st_bind, st_lift.
    rewrite Hdef, Hval. destruct s; split; reflexivity.
Qed.

(** X12. Every error [PostTemplate] and [PutTemplate] return from the
    database is logged, once, as the last entry; a validation error is not
    logged; and a nil result logs nothing. *)
Theorem PostTemplate_PutTemplate_logged (t : Template.t) (s : Store) :
  let validated := Template.Validate (default_profile t) (world s) in
  (let '(_, err, s') := PostTemplate t s in
   world s' = snd validated
   /\ logged s' = logged s ++ match fst validated, err with
                              | None, Some e => [e]
                              | _, _ => []
                              end)
  /\ (let '(_, err, s') := PutTemplate t s in
      world s' = snd validated
      /\ logged s' = logged s ++ match fst validated, err with
                                 | None, Some e => [e]
                                 | _, _ => []
                                 end).
Proof.
  cbv zeta. unfold PostTemplate, PutTemplate, st_bind, st_lift, st_write.
  destruct (Template.Validate (default_profile t) (world s)) as [[invalid|] w'];
    cbn [fst snd database logged world].
  { unfold st_ret. rewrite app_nil_r. auto. }
  split.
  - destruct (gorm.SaveTemplate (database s) (default_profile t))
      as [[t1 [e|]] db1]; cbn [fst snd].
    + unfold log_Error, st_ret. cbn [world logged]. auto.
    + pose proof (save_attachments_spec
                    (seq 0 (length (Template.Attachments t1))) t1
                    (mkStore db1 (logged s) w')) as Hsave.
      destruct (save_attachments _ t1 _) as [[t2 err] s2].
      cbn [world logged] in Hsave. tauto.
  - destruct (gorm.DeleteAttachments (database s)
                (Template.Id (default_profile t))) as [err0 db1].
    destruct (failure err0) as [e|].
    + unfold log_Error, st_ret. cbn [world logged]. auto.
    + pose proof (save_attachments_spec
                    (seq 0 (length (Template.Attachments (default_profile t))))
                    (default_profile t)
                    (mkStore db1 (logged s) w')) as Hsave.
      destruct (save_attachments _ (default_profile t) _) as [[t2 [e|]] s2];
        cbn [fst snd world logged] in *.
      * unfold st_ret. tauto.
      * destruct Hsave as (Hw & Hl & _). rewrite app_nil_r in Hl.
        destruct (gorm.SaveTemplate (database s2) t2) as [[t3 [e|]] db3];
          cbn [fst snd]; unfold log_Error, st_ret; cbn [world logged];
          rewrite ?app_nil_r, ?Hl; auto.
Qed.

End DatabaseFacts.

Section LookupFacts.
Context {AM : AttachmentModel} {DBI : gorm.Database}.

Lemma make_if_empty_id (err : option error) (l : list Attachment) :
  make_if_empty err l = l.
Proof.
  unfold make_if_empty. destruct (bool_decide (err = None)); [|reflexivity].
  destruct l; reflexivity.
Qed.

Lemma load_template_outcome (row : Template.t * option error) (s : Store) :
  lookup_outcome s row (load_template row s).
Proof.
  unfold lookup_outcome, load_template, st_bind, st_query, log_Error, st_ret.
  destruct row as [t [e0|]]; cbn [fst snd].
  { split; [intros e [= <-]; reflexivity|].
    repeat split; intros; discriminate. }
  destruct (gorm.FindAttachments (database s) (Template.Id t)
              (Template.Attachments t)) as [l err]; cbn [fst snd].
  rewrite make_if_empty_id.
  change (set_Attachments (set_Attachments t l)
            (Template.Attachments (set_Attachments t l)))
    with (set_Attachments t l).
  split; [intros e [=]|].
  destruct err as [e|]; cbn [failure].
  - destruct (gorm.is_ErrRecordNotFound e) eqn:Hnf; cbn [fst snd].
    + split; [discriminate|].
      split; [intros e' _ [= <-] _; reflexivity|].
      split; [intros e' _ [= <-] Hnf'; congruence|].
      intros _ _. apply default_profile_not_empty.
    + split; [discriminate|].
      split; [intros e' _ [= <-] Hnf'; congruence|].
      split; [intros e' _ [= <-] _; reflexivity|].
      discriminate.
  - cbn [fst snd].
    split; [reflexivity|].
    split; [discriminate|]. split; [discriminate|].
    intros _ _. apply default_profile_not_empty.
Qed.

(** X13. [GetTemplate] and [GetTemplateByName], case by case. When the
    query for the row returns an error, the row as the query left it and
    that error are returned, and the error is logged. When the row is
    found, its attachments are looked up. With no error from that lookup
    the row is returned with these attachments and, if its header profile
    was empty, the profile default, with a nil error and nothing logged.
    With the record-not-found error the same template is returned,
    together with that error, and nothing is logged. With any other error
    the row is returned with the attachments as the lookup left them and
    its header profile as stored, the error is returned and logged. The
    database and the clock are never changed, and a template returned
    without a logged error has a header profile that is not empty. *)
Theorem GetTemplate_GetTemplateByName_outcome
    (id uid : Z) (n : string) (s : Store) :
  lookup_outcome s (gorm.FindTemplate (database s) uid id) (GetTemplate id uid s)
  /\ lookup_outcome s (gorm.FindTemplateByName (database s) uid n)
       (GetTemplateByName n uid s).
Proof.
  unfold GetTemplate, GetTemplateByName, st_bind, st_query.
  split; apply load_template_outcome.
Qed.

Section Loop.
Variable s : Store.

Let found (t : Template.t) : list Attachment * option error :=
  gorm.FindAttachments (database s) (Template.Id t) (Template.Attachments t).

Let loaded (t : Template.t) : Template.t := set_Attachments t (fst (found t)).

Lemma GetTemplates_loop_step (done rest : list Template.t) (t : Template.t)
    (err : option error) :
  GetTemplates_loop (seq (length done) (S (length rest))) (done ++ t :: rest) err s
  = match failure (snd (found t)) with
    | Some e =>
        (done ++ loaded t :: rest, Some e, true,
         mkStore (database s) (logged s ++ [e]) (world s))
    | None =>
        GetTemplates_loop (seq (length (done ++ [default_profile (loaded t)]))
                               (length rest))
          ((done ++ [default_profile (loaded t)]) ++ rest) (snd (found t)) s
    end.
Proof.
  cbn [seq GetTemplates_loop]. rewrite list_lookup_middle by reflexivity.
  unfold st_bind, st_query. cbn [fst snd]. rewrite make_if_empty_id.
  change (set_Attachments
            (set_Attachments t
               (fst (gorm.FindAttachments (database s) (Template.Id t)
                       (Template.Attachments t))))
            (Template.Attachments
               (set_Attachments t
                  (fst (gorm.FindAttachments (database s) (Template.Id t)
                          (Template.Attachments t))))))
    with (loaded t).
  change (gorm.FindAttachments (database s) (Template.Id t)
            (Template.Attachments t)) with (found t).
  rewrite !insert_app_r_alt by lia. rewrite Nat.sub_diag. cbn [insert list_insert].
  destruct (failure (snd (found t))) as [e|].
  - reflexivity.
  - rewrite length_app, Nat.add_1_r, <- app_assoc. reflexivity.
Qed.

Lemma GetTemplates_loop_all (todo : list Template.t) :
  forall (done : list Template.t) (err : option error),
  Forall (fun t => failure (snd (found t)) = None) todo ->
  GetTemplates_loop (seq (length done) (length todo)) (done ++ todo) err s
  = (done ++ ((fun t => default_profile (loaded t)) <$> todo),
     match last todo with Some t => snd (found t) | None => err end,
     false, s).
Proof.
  induction todo as [|t todo IH]; intros done err Hall.
  - cbn [length seq GetTemplates_loop fmap list_fmap last]. reflexivity.
  - cbn [length]. rewrite GetTemplates_loop_step.
    apply Forall_cons in Hall as [Ht Hall]. rewrite Ht.
    rewrite IH by exact Hall. rewrite <- app_assoc. cbn [app fmap list_fmap].
    rewrite last_cons. destruct (last todo); reflexivity.
Qed.

Lemma GetTemplates_loop_stops (before : list Template.t) :
  forall (done after : list Template.t) (t : Template.t) (err : option error)
         (e : error),
  Forall (fun t => failure (snd (found t)) = None) before ->
  failure (snd (found t)) = Some e ->
  GetTemplates_loop (seq (length done) (length (before ++ t :: after)))
    (done ++ before ++ t :: after) err s
  = (done ++ ((fun t => default_profile (loaded t)) <$> before)
          ++ loaded t :: after,
     Some e, true, mkStore (database s) (logged s ++ [e]) (world s)).
Proof.
  induction before as [|b before IH]; intros done after t err e Hall Ht.
  - cbn [app length fmap list_fmap]. rewrite GetTemplates_loop_step, Ht.
    reflexivity.
  - cbn [app length]. rewrite GetTemplates_loop_step.
    apply Forall_cons in Hall as [Hb Hall]. rewrite Hb.
    rewrite (IH _ after t _ e Hall Ht). rewrite <- app_assoc.
    cbn [app fmap list_fmap]. reflexivity.
Qed.

End Loop.

(** X14. [GetTemplates], case by case. When the query for the rows
    returns an error, the rows as the query left them and that error are
    returned, and the error is logged. Otherwise the attachments of each
    row are looked up in order. When no lookup returns an error other
    than record-not-found, every row is returned with its attachments and,
    if its header profile was empty, the profile default; nothing is
    logged; and the error returned is that of the lookup for the last row
    alone (nil when there is no row): the record-not-found of an earlier
    row is not returned. When the lookup for a row returns another error,
    the rows before it are returned loaded and defaulted, that row with
    the attachments as the lookup left them and its profile as stored, the
    rows after it as the query returned them; the error is returned and
    logged. The database and the clock are never changed. *)
Theorem GetTemplates_outcome (uid : Z) (s : Store) :
  let rows := gorm.FindTemplatesOfUser (database s) uid in
  let found t :=
    gorm.FindAttachments (database s) (Template.Id t) (Template.Attachments t) in
  let loaded t := set_Attachments t (fst (found t)) in
  let logging e := mkStore (database s) (logged s ++ [e]) (world s) in
  (forall e, snd rows = Some e ->
     GetTemplates uid s = (fst rows, Some e, logging e))
  /\ (snd rows = None ->
      Forall (fun t => failure (snd (found t)) = None) (fst rows) ->
      GetTemplates uid s
      = ((fun t => default_profile (loaded t)) <$> fst rows,
         match last (fst rows) with
         | Some t => snd (found t)
         | None => None
         end,
         s))
  /\ (forall before t after e,
        snd rows = None ->
        fst rows = before ++ t :: after ->
        Forall (fun t => failure (snd (found t)) = None) before ->
        failure (snd (found t)) = Some e ->
        GetTemplates uid s
        = (((fun t => default_profile (loaded t)) <$> before)
             ++ loaded t :: after,
           Some e, logging e)).
Proof.
  cbv zeta. unfold GetTemplates, st_bind, st_query.
  destruct (gorm.FindTemplatesOfUser (database s) uid) as [rows err];
    cbn [fst snd].
  split; [|split].
  - intros e ->. reflexivity.
  - intros -> Hall.
    pose proof (GetTemplates_loop_all s rows [] None Hall) as Hloop.
    cbn [app length] in Hloop. rewrite Hloop. reflexivity.
  - intros before t after e -> -> Hall Ht.
    pose proof (GetTemplates_loop_stops s before [] after t None e Hall Ht)
      as Hloop.
    change (length []) with 0 in Hloop.
    change ([] ++ before ++ t :: after) with (before ++ t :: after) in Hloop.
    rewrite Hloop. reflexivity.
Qed.

End LookupFacts.

(** X15. [DeleteTemplate] deletes the attachments first and the row
    second, and the row only when deleting the attachments did not fail;
    a record-not-found of the first delete does not count as a failure and
    is not returned. It returns nil exactly when neither step failed, the
    error it returns is logged, once, and the clock is not read. *)
Theorem DeleteTemplate_outcome {AM : AttachmentModel} {DBI : gorm.Database}
    (id uid : Z) (s : Store) :
  let attachments := gorm.DeleteAttachments (database s) id in
  let row := gorm.DeleteTemplateRow (snd attachments) uid id in
  let '(err, s') := DeleteTemplate id uid s in
  world s' = world s
  /\ logged s' = logged s ++ match err with Some e => [e] | None => [] end
  /\ (err = None <-> failure (fst attachments) = None /\ fst row = None)
  /\ (failure (fst attachments) = None ->
      err = fst row /\ database s' = snd row)
  /\ (failure (fst attachments) <> None ->
      err = failure (fst attachments) /\ database s' = snd attachments).
Proof.
  cbv zeta. unfold DeleteTemplate, st_bind, st_write.
  destruct (gorm.DeleteAttachments (database s) id) as [err0 db1];
    cbn [fst snd database logged world].
  destruct (failure err0) as [e|]; cbn [fst snd database logged world].
  - unfold log_Error, st_ret. cbn [database logged world].
    split; [reflexivity|]. split; [reflexivity|].
    split; [split; [discriminate | intros [[=] _]]|].
    split; [discriminate | auto].
  - destruct (gorm.DeleteTemplateRow db1 uid id) as [[e|] db2];
      cbn [fst snd database logged world]; unfold log_Error, st_ret;
      cbn [database logged world]; rewrite ?app_nil_r.
    + split; [reflexivity|]. split; [reflexivity|].
      split; [split; [discriminate | intros [_ [=]]]|].
      split; [auto | congruence].
    + split; [reflexivity|]. split; [reflexivity|].
      split; [tauto|]. split; [auto | congruence].
Qed.

(** ** The further properties on the reference libraries *)

(** X1 at the Outlook profile. *)
Lemma GetHeadersForProfile_registered_witness :
  let '(headers, _, _) :=
    fst (GetHeadersForProfile (R := Ref.rand_source) "outlook"
           (Ref.world_at noon)) in
  headers !! "X-Mailer" = Some "Microsoft Outlook 16.0".
Proof.
  pose proof (GetHeadersForProfile_registered (R := Ref.rand_source)
                "outlook"
                (default HeaderProfile.zero (PredefinedHeaderProfiles !! "outlook"))
                (Ref.world_at noon) eq_refl) as H.
  destruct (fst (GetHeadersForProfile "outlook" (Ref.world_at noon)))
    as [[headers boundary] err].
  destruct H as (_ & _ & Hkeep & _).
  rewrite Hkeep by discriminate. vm_compute. reflexivity.
Defined.

(** X2 at the Apple Mail profile: the first readings differ, the second
    ones agree. *)
Lemma GetHeadersForProfile_same_instant_witness :
  fst (GetHeadersForProfile (R := Ref.rand_source) "apple_mail" noon_then_later)
  = fst (GetHeadersForProfile (R := Ref.rand_source) "apple_mail"
           (Ref.world_at (noon + 60000000000))).
Proof.
  refine (proj1 (GetHeadersForProfile_same_instant (R := Ref.rand_source)
                   "apple_mail" noon_then_later
                   (Ref.world_at (noon + 60000000000)) _)).
  vm_compute. reflexivity.
Defined.

(** X5 at a template that has no name. *)
Lemma Validate_input_errors_witness :
  Template.Validate
    (MP := Ref.mail_parser) (UP := Ref.url_package)
    (TE := Ref.template_engine) RefDB.unnamed (Ref.world_at noon)
  = (Some ErrTemplateNameNotSpecified, Ref.world_at noon).
Proof.
  refine (proj1 (Validate_input_errors
                   (MP := Ref.mail_parser) (UP := Ref.url_package)
                   (TE := Ref.template_engine) RefDB.unnamed
                   (Ref.world_at noon) _) eq_refl).
  right. exists (default HeaderProfile.zero (PredefinedHeaderProfiles !! "outlook")).
  vm_compute. reflexivity.
Defined.

(** X6 at a template whose HTML body names a field the context does not
    have. *)
Lemma Validate_html_first_witness :
  exists err,
    fst (Template.Validate
           (MP := Ref.mail_parser) (UP := Ref.url_package)
           (TE := Ref.template_engine)
           (Template.mk Ref.no_attachments 1 1 "Quarterly review" EmptyString
              "Subject" "Hello {{.FirstName}}" "<p>{{.Unknown}}</p>"
              (time.mkTime 0 0) [] "outlook")
           (Ref.world_at noon))
    = Some err.
Proof.
  eexists.
  refine (f_equal fst
            (Validate_html_first
               (MP := Ref.mail_parser) (UP := Ref.url_package)
               (TE := Ref.template_engine)
               (Template.mk Ref.no_attachments 1 1 "Quarterly review" EmptyString
                  "Subject" "Hello {{.FirstName}}" "<p>{{.Unknown}}</p>"
                  (time.mkTime 0 0) [] "outlook")
               (Ref.world_at noon) _ _ _ _)).
  - right.
    exists (default HeaderProfile.zero (PredefinedHeaderProfiles !! "outlook")).
    vm_compute. reflexivity.
  - vm_compute. reflexivity.
  - vm_compute. reflexivity.
Defined.

(** X7 at a body that names a field the context does not have: the
    context is built, the body parses, and executing it fails. *)
Lemma ValidateTemplate_error_stage_witness :
  exists e,
    fst (ValidateTemplate (MP := Ref.mail_parser) (UP := Ref.url_package)
           (TE := Ref.template_engine) "{{.Unknown}}" (Ref.world_at noon))
    = Some (fmt_Errorf_w
              ("template validation failed: "
               +:+ ("error executing template: " +:+ Error e))
              (fmt_Errorf_w ("error executing template: " +:+ Error e) e)).
Proof.
  assert (Hfails :
    exists err,
      fst (ValidateTemplate (MP := Ref.mail_parser) (UP := Ref.url_package)
             (TE := Ref.template_engine) "{{.Unknown}}" (Ref.world_at noon))
      = Some err).
  { eexists. vm_compute. reflexivity. }
  destruct Hfails as [err Herr].
  destruct (ValidateTemplate_error_stage
              (MP := Ref.mail_parser) (UP := Ref.url_package)
              (TE := Ref.template_engine) "{{.Unknown}}" (Ref.world_at noon)
              err Herr)
    as [(inner & Hbuilt & _) | [(_ & e & Hparse & _) | (_ & tmpl & e & _ & _ & ->)]].
  - vm_compute in Hbuilt. discriminate.
  - vm_compute in Hparse. discriminate.
  - exists e. exact Herr.
Defined.

(** X8 on the reference libraries. *)
Lemma ValidateTemplate_fixed_context_witness :
  ValidateTemplate (MP := Ref.mail_parser) (UP := Ref.url_package)
    (TE := Ref.template_engine) "{{.URL}}" (Ref.world_at noon)
  = (None, Ref.world_at noon).
Proof.
  rewrite (proj2 (ValidateTemplate_fixed_context
                    (MP := Ref.mail_parser) (UP := Ref.url_package)
                    (TE := Ref.template_engine)
                    (mail.mkAddress EmptyString "foo@bar.com")
                    [Ref.NText "http://example.com"]
                    "http://example.com"
                    (url.mkURL "http" EmptyString None "example.com" EmptyString
                       EmptyString false false EmptyString EmptyString
                       EmptyString)
                    ltac:(vm_compute; reflexivity)
                    ltac:(vm_compute; reflexivity)
                    ltac:(vm_compute; reflexivity)
                    ltac:(vm_compute; reflexivity)
                    "{{.URL}}" (Ref.world_at noon))).
  vm_compute. reflexivity.
Defined.

(** X9 at two base URLs, one of which carries a recipient id already. *)
Lemma NewPhishingTemplateContext_forgets_recipient_witness :
  PhishingTemplateContext.URL
    (fst (build "foo@bar.com" "http://example.com/login?next=1&rid=stale"
            "validate123"))
  = PhishingTemplateContext.URL
      (fst (build "foo@bar.com" "http://example.com/login?next=1"
              "validate123")).
Proof.
  refine (proj1 (NewPhishingTemplateContext_forgets_recipient
                   (MP := Ref.mail_parser) (UP := Ref.url_package)
                   (TE := Ref.template_engine)
                   (ValidationContext.mk "foo@bar.com"
                      "http://example.com/login?next=1&rid=stale")
                   (ValidationContext.mk "foo@bar.com"
                      "http://example.com/login?next=1")
                   recipient recipient "validate123"
                   (Ref.world_at noon) (Ref.world_at noon)
                   (url.mkURL "http" EmptyString None "example.com" "/login"
                      EmptyString false false "next=1&rid=stale" EmptyString
                      EmptyString)
                   (url.mkURL "http" EmptyString None "example.com" "/login"
                      EmptyString false false "next=1" EmptyString EmptyString)
                   _ _ _ _ _ _)).
  - vm_compute. reflexivity.
  - vm_compute. reflexivity.
  - vm_compute. reflexivity.
  - vm_compute. reflexivity.
  - reflexivity.
  - intros key Hkey.
    change (url.Query (UP := Ref.url_package)
              (url.mkURL "http" EmptyString None "example.com" "/login"
                 EmptyString false false "next=1&rid=stale" EmptyString
                 EmptyString))
      with (<[RecipientParameter := ["stale"]]>
              (url.Query (UP := Ref.url_package)
                 (url.mkURL "http" EmptyString None "example.com" "/login"
                    EmptyString false false "next=1" EmptyString EmptyString))).
    apply lookup_insert_ne. congruence.
Defined.

(** X10 at a template that has no name, on the in-memory database. *)
Lemma PostTemplate_PutTemplate_invalid_witness :
  PostTemplate (MP := Ref.mail_parser) (UP := Ref.url_package)
    (TE := Ref.template_engine) RefDB.unnamed (RefDB.store [RefDB.legacy])
  = (RefDB.unnamed, Some ErrTemplateNameNotSpecified,
     RefDB.store [RefDB.legacy]).
Proof.
  refine (proj1 (PostTemplate_PutTemplate_invalid
                   (MP := Ref.mail_parser) (UP := Ref.url_package)
                   (TE := Ref.template_engine) RefDB.unnamed
                   (RefDB.store [RefDB.legacy]) ErrTemplateNameNotSpecified _)).
  vm_compute. reflexivity.
Defined.

(** X11 at a row of before header profiles were introduced. *)
Lemma PostTemplate_PutTemplate_profile_witness :
  PutTemplate (MP := Ref.mail_parser) (UP := Ref.url_package)
    (TE := Ref.template_engine) RefDB.legacy (RefDB.store [RefDB.legacy])
  = PutTemplate (MP := Ref.mail_parser) (UP := Ref.url_package)
      (TE := Ref.template_engine) (set_HeaderProfile RefDB.legacy "default")
      (RefDB.store [RefDB.legacy]).
Proof.
  refine (proj2 (proj1 (PostTemplate_PutTemplate_profile
                          (MP := Ref.mail_parser) (UP := Ref.url_package)
                          (TE := Ref.template_engine) RefDB.legacy
                          (RefDB.store [RefDB.legacy])) eq_refl)).
Defined.

(** X13 at a row of before header profiles were introduced, for whose
    attachments the driver reports record-not-found. *)
Lemma GetTemplate_GetTemplateByName_outcome_witness :
  GetTemplate (DBI := RefDB.with_lookup_error 7 RefDB.ErrRecordNotFound) 7 1
    (RefDB.store_without_attachments [RefDB.legacy; RefDB.recent])
  = (set_HeaderProfile RefDB.legacy "default", Some RefDB.ErrRecordNotFound,
     RefDB.store_without_attachments [RefDB.legacy; RefDB.recent]).
Proof.
  refine (proj1 (proj2 (proj2 (proj1
            (GetTemplate_GetTemplateByName_outcome
               (DBI := RefDB.with_lookup_error 7 RefDB.ErrRecordNotFound)
               7 1 EmptyString
               (RefDB.store_without_attachments [RefDB.legacy; RefDB.recent])))))
            RefDB.ErrRecordNotFound _ _ _).
  - reflexivity.
  - reflexivity.
  - reflexivity.
Defined.

(** X14 at two rows: the driver reports record-not-found for the
    attachments of the first, and nothing for the second. *)
Lemma GetTemplates_outcome_witness :
  GetTemplates (DBI := RefDB.with_lookup_error 7 RefDB.ErrRecordNotFound) 1
    (RefDB.store_without_attachments [RefDB.legacy; RefDB.recent])
  = ([set_HeaderProfile RefDB.legacy "default"; RefDB.recent], None,
     RefDB.store_without_attachments [RefDB.legacy; RefDB.recent]).
Proof.
  refine (proj1 (proj2
            (GetTemplates_outcome
               (DBI := RefDB.with_lookup_error 7 RefDB.ErrRecordNotFound) 1
               (RefDB.store_without_attachments [RefDB.legacy; RefDB.recent])))
            _ _).
  - reflexivity.
  - apply Forall_cons. split; [reflexivity|].
    apply Forall_cons. split; [reflexivity|]. apply Forall_nil_2.
Defined.

(** ** The attachments of a template *)

Section AttachmentFacts.
Context {AM : AttachmentModel}.

Lemma validate_attachments_app (before rest : list Attachment) (w : World) :
  fst (Template.validate_attachments before w) = None ->
  Template.validate_attachments (before ++ rest) w
  = Template.validate_attachments rest
      (snd (Template.validate_attachments before w)).
Proof.
  revert w; induction before as [|a before IH]; intros w Hok;
    cbn [app Template.validate_attachments] in *.
  - reflexivity.
  - unfold bind in *.
    destruct (Attachment_Validate a w) as [[e|] w1]; cbn [fst snd ret] in *;
      [discriminate | apply IH; exact Hok].
Qed.

(** X16. The loop of [Validate] over the attachments stops at the first
    attachment that is refused and returns its error: the attachments
    after it are not validated, whatever they are, and the clock is left
    where that attachment left it. *)
Theorem validate_attachments_first_refused
    (before after : list Attachment) (a : Attachment) (w : World) (err : error) :
  let w1 := snd (Template.validate_attachments before w) in
  fst (Template.validate_attachments before w) = None ->
  fst (Attachment_Validate a w1) = Some err ->
  Template.validate_attachments (before ++ a :: after) w
  = (Some err, snd (Attachment_Validate a w1)).
Proof.
  intros w1 Hbefore Ha. subst w1.
  rewrite validate_attachments_app by exact Hbefore.
  cbn [Template.validate_attachments]. unfold bind.
  destruct (Attachment_Validate a _) as [[e|] w2]; unfold ret;
    cbn [fst snd] in *; congruence.
Qed.

End AttachmentFacts.

(** X16 at three attachments, the second of which has no name. *)
Lemma validate_attachments_first_refused_witness :
  Template.validate_attachments (AM := RefAttachment.named)
    ["logo.png"; EmptyString; "terms.pdf"] (Ref.world_at noon)
  = (Some RefAttachment.ErrNoName, Ref.world_at noon).
Proof.
  refine (validate_attachments_first_refused (AM := RefAttachment.named)
            ["logo.png"] ["terms.pdf"] EmptyString (Ref.world_at noon)
            RefAttachment.ErrNoName _ _).
  - vm_compute. reflexivity.
  - vm_compute. reflexivity.
Defined.
